(** * Choir V2 preset generators: builder, catalogs and writer

    A shallow embedding of [scripts/generate_gender_presets.py] and
    [scripts/additional_presets.py].  Python values are an inductive type,
    dictionaries are insertion-ordered association lists, the wall clock,
    the file store and the console are threaded through a state-and-error
    monad. *)

From Stdlib Require Import ZArith String Ascii List Bool Lia.
From Stdlib Require Import PrimFloat SpecFloat FloatOps.
From Stdlib Require DecimalFacts DecimalPos DecimalN.
From stdpp Require Import gmap strings.

Set Warnings "-inexact-float,-register-all".
Local Open Scope string_scope.
Local Open Scope Z_scope.

(** ** Python values *)

(** The values the scripts build and pass around.  A string is a sequence
    of characters of [ascii], read as the code points below 256.
    Dictionary keys are strings (every key in both scripts is a string
    literal); a dictionary keeps its items in insertion order, as Python's
    [dict] does. *)
Inductive pyval : Type :=
| PNone
| PBool (b : bool)
| PInt (z : Z)
| PFloat (f : float)
| PStr (s : string)
| PList (l : list pyval)
| PTuple (l : list pyval)
| PDict (d : list (string * pyval)).

Inductive pyerr : Type :=
| TypeError
| KeyError
| AttributeError
| FileNotFoundError
| IsADirectoryError.

(** Python's truth value testing ([bool(v)]), used by [tags or []] and by
    [if gender_balance:]. *)
Definition truthy (v : pyval) : bool :=
  match v with
  | PNone => false
  | PBool b => b
  | PInt z => negb (z =? 0)
  | PFloat f => negb (PrimFloat.eqb f 0%float)
  | PStr s => negb (String.eqb s "")
  | PList l | PTuple l => match l with [] => false | _ => true end
  | PDict d => match d with [] => false | _ => true end
  end.

(** [a or b] *)
Definition py_or (a b : pyval) : pyval := if truthy a then a else b.

(** *** Dictionaries *)

Fixpoint assoc {A} (k : string) (d : list (string * A)) : option A :=
  match d with
  | [] => None
  | (k', v) :: d' => if String.eqb k k' then Some v else assoc k d'
  end.

(** [d[k] = v] on the item list: an existing key keeps its position, a new
    key goes to the end. *)
Fixpoint assoc_set {A} (k : string) (v : A) (d : list (string * A)) : list (string * A) :=
  match d with
  | [] => [(k, v)]
  | (k', v') :: d' =>
      if String.eqb k k' then (k', v) :: d' else (k', v') :: assoc_set k v d'
  end.

Definition keys {A} (d : list (string * A)) : list string := map fst d.

(** A dict display [{k1: v1, ...}]: items are inserted left to right. *)
Definition dict_display (items : list (string * pyval)) : pyval :=
  PDict (fold_left (fun d kv => assoc_set (fst kv) (snd kv) d) items []).

(** *** Python's [==] *)

Inductive pynum : Type :=
| NInt (z : Z)
| NFloat (f : float).

(** [bool] is a subclass of [int]: [True == 1]. *)
Definition as_number (v : pyval) : option pynum :=
  match v with
  | PBool b => Some (NInt (if b then 1 else 0))
  | PInt z => Some (NInt z)
  | PFloat f => Some (NFloat f)
  | _ => None
  end.

(** An [int] and a [float] are compared by their exact values. *)
Definition float_eq_int (f : float) (z : Z) : bool :=
  match Prim2SF f with
  | S754_zero _ => z =? 0
  | S754_finite s m e =>
      let mz := if s then Z.neg m else Z.pos m in
      if 0 <=? e then z =? mz * 2 ^ e else z * 2 ^ (- e) =? mz
  | _ => false
  end.

Definition num_eq (a b : pynum) : bool :=
  match a, b with
  | NInt x, NInt y => x =? y
  | NInt x, NFloat f => float_eq_int f x
  | NFloat f, NInt x => float_eq_int f x
  | NFloat f, NFloat g => PrimFloat.eqb f g
  end.

(** [a == b]: numbers by value, strings, lists and tuples item by item,
    dictionaries by their key sets and the values under each key (order
    does not count); values of different kinds are unequal. *)
Fixpoint py_eq (a b : pyval) {struct a} : bool :=
  match a with
  | PNone => match b with PNone => true | _ => false end
  | PBool _ | PInt _ | PFloat _ =>
      match as_number a, as_number b with
      | Some x, Some y => num_eq x y
      | _, _ => false
      end
  | PStr s => match b with PStr t => String.eqb s t | _ => false end
  | PList l =>
      match b with
      | PList l' =>
          (fix items (xs ys : list pyval) : bool :=
             match xs, ys with
             | [], [] => true
             | x :: xs', y :: ys' => py_eq x y && items xs' ys'
             | _, _ => false
             end) l l'
      | _ => false
      end
  | PTuple l =>
      match b with
      | PTuple l' =>
          (fix items (xs ys : list pyval) : bool :=
             match xs, ys with
             | [], [] => true
             | x :: xs', y :: ys' => py_eq x y && items xs' ys'
             | _, _ => false
             end) l l'
      | _ => false
      end
  | PDict d =>
      match b with
      | PDict d' =>
          (length d =? length d')%nat &&
          forallb (fun kv => match assoc (fst kv) d' with
                             | Some y => py_eq (snd kv) y
                             | None => false
                             end) d
      | _ => false
      end
  end.

(** ** Numbers as text *)

Definition digit_char (d : Z) : ascii := ascii_of_nat (48 + Z.to_nat d).

Fixpoint chars_of_uint (u : Decimal.uint) : list ascii :=
  match u with
  | Decimal.Nil => []
  | Decimal.D0 u' => "0"%char :: chars_of_uint u'
  | Decimal.D1 u' => "1"%char :: chars_of_uint u'
  | Decimal.D2 u' => "2"%char :: chars_of_uint u'
  | Decimal.D3 u' => "3"%char :: chars_of_uint u'
  | Decimal.D4 u' => "4"%char :: chars_of_uint u'
  | Decimal.D5 u' => "5"%char :: chars_of_uint u'
  | Decimal.D6 u' => "6"%char :: chars_of_uint u'
  | Decimal.D7 u' => "7"%char :: chars_of_uint u'
  | Decimal.D8 u' => "8"%char :: chars_of_uint u'
  | Decimal.D9 u' => "9"%char :: chars_of_uint u'
  end.

(** The decimal digits of a non-negative integer, most significant
    first, with no leading zero (["0"] for zero). *)
Definition digits (z : Z) : list ascii := chars_of_uint (N.to_uint (Z.to_N z)).

(** [int.__repr__] *)
Definition int_repr (z : Z) : list ascii :=
  if z <? 0 then "-"%char :: digits (- z) else digits z.

(** *** Decimal to binary64: Python's [float(text)]

    A binary64 value is handled through its specification
    ([Prim2SF]/[SF2Prim]); a decimal is a pair [(d, k)] standing for
    [d * 10^k]. *)

(** [v * 10^s] as a fraction, for [v = num/den]. *)
Definition scale10 (num den s : Z) : Z * Z :=
  if 0 <=? s then (num * 10 ^ s, den) else (num, den * 10 ^ (- s)).

(** The binary64 value nearest to [d * 10^k] (ties to even), for [0 < d]:
    correctly rounded, as [float()] is. *)
Definition strtod_pos (d k : Z) : spec_float :=
  if 0 <=? k then binary_normalize prec emax (d * 10 ^ k) 0 false
  else
    let '(q, e, l) := SFdiv_core_binary prec emax d 0 (10 ^ (- k)) 0 in
    binary_round_aux prec emax false q e l.

Definition strtod (neg : bool) (d k : Z) : float :=
  if d =? 0 then (if neg then (-0.0)%float else 0%float)
  else SF2Prim (if neg then SFopp (strtod_pos d k) else strtod_pos d k).

(** *** Binary64 to decimal: [float.__repr__]

    The shortest digit string that reads back as the same float; among the
    decimals of that length, the one nearest to the float. *)

(** [num/den < 10^t] *)
Definition below_pow10 (num den t : Z) : bool :=
  let '(n, d) := scale10 num den (- t) in n <? d.

Fixpoint decpt_search (fuel : nat) (num den t : Z) : Z :=
  match fuel with
  | O => t
  | S fuel' =>
      if below_pow10 num den t then t else decpt_search fuel' num den (t + 1)
  end.

(** The least [t] with [num/den < 10^t], from an estimate that is at most
    a few units below it. *)
Definition decimal_point (num den : Z) : Z :=
  decpt_search 8 num den (((Z.log2 num - Z.log2 den) * 30103) / 100000 - 2).

Definition reads_back (m e d k : Z) : bool :=
  SFeqb (strtod_pos d k) (S754_finite false (Z.to_pos m) e).

(** For [p = 1, 2, ...] digits: the two [p]-digit decimals around
    [num/den], nearer one first; the first that reads back is the answer.
    Seventeen digits always identify a binary64 value, so the search stops
    there at the latest. *)
Fixpoint shortest_search (fuel : nat) (p m e num den t : Z) : Z * Z :=
  let '(n, d) := scale10 num den (p - t) in
  let q := n / d in
  let r := n mod d in
  let up := (d <? 2 * r) || ((d =? 2 * r) && Z.odd q) in
  let near := if up then q + 1 else q in
  let far := if up then q else q + 1 in
  match fuel with
  | O => (near, t - p)
  | S fuel' =>
      if reads_back m e near (t - p) then (near, t - p)
      else if reads_back m e far (t - p) then (far, t - p)
      else shortest_search fuel' (p + 1) m e num den t
  end.

Definition shortest_decimal (m e : Z) : Z * Z :=
  let '(num, den) := if 0 <=? e then (m * 2 ^ e, 1) else (m, 2 ^ (- e)) in
  shortest_search 16 1 m e num den (decimal_point num den).

Fixpoint strip_zeros (fuel : nat) (d k : Z) : Z * Z :=
  match fuel with
  | O => (d, k)
  | S fuel' =>
      if (d mod 10 =? 0) && (0 <? d) then strip_zeros fuel' (d / 10) (k + 1)
      else (d, k)
  end.

Definition zeros (n : Z) : list ascii := repeat "0"%char (Z.to_nat n).

(** The exponent of the scientific form: a sign and at least two digits. *)
Definition exponent_digits (x : Z) : list ascii :=
  ((if x <? 0 then "-"%char else "+"%char)
     :: (if Z.abs x <? 10 then ["0"%char] else [])) ++ digits (Z.abs x).

(** The layout of [repr]: [ds] are the significant digits and the value is
    [0.ds * 10^decpt]; scientific form when [decpt <= -4] or [decpt > 16],
    and [.0] added to an integer. *)
Definition format_repr (ds : list ascii) (decpt : Z) : list ascii :=
  let n := Z.of_nat (length ds) in
  if (decpt <=? -4) || (16 <? decpt) then
    match ds with
    | [] => []
    | d1 :: more =>
        d1 :: (match more with [] => [] | _ => "."%char :: more end)
           ++ "e"%char :: exponent_digits (decpt - 1)
    end
  else if decpt <=? 0 then
    "0"%char :: "."%char :: zeros (- decpt) ++ ds
  else if n <=? decpt then
    ds ++ zeros (decpt - n) ++ ["."%char; "0"%char]
  else
    firstn (Z.to_nat decpt) ds ++ "."%char :: skipn (Z.to_nat decpt) ds.

Definition minus_if (s : bool) (t : list ascii) : list ascii :=
  if s then "-"%char :: t else t.

Definition float_repr (f : float) : list ascii :=
  match Prim2SF f with
  | S754_zero s => minus_if s (list_ascii_of_string "0.0")
  | S754_infinity s => minus_if s (list_ascii_of_string "inf")
  | S754_nan => list_ascii_of_string "nan"
  | S754_finite s m e =>
      let '(d, k) := shortest_decimal (Z.pos m) e in
      let '(d', k') := strip_zeros 20 d k in
      let ds := digits d' in
      minus_if s (format_repr ds (Z.of_nat (length ds) + k'))
  end.

(** ** [json.dump(obj, f, indent=2)]: the text written

    Python's [json] encoder with its defaults ([ensure_ascii],
    [allow_nan], item separator [","], key separator [": "]) and
    [indent=2]. *)

Definition hex_char (d : nat) : ascii :=
  if (d <? 10)%nat then ascii_of_nat (48 + d) else ascii_of_nat (87 + d).

Definition quote_char : ascii := "034"%char.
Definition backslash_char : ascii := "092"%char.
Definition newline_char : ascii := "010"%char.

(** One character of a string under [ensure_ascii]: a quote and a
    backslash are escaped, the five control characters with a short escape
    use it, any other character outside [' '..'~'] becomes [\u00xx]. *)
Definition escape_char (c : ascii) : list ascii :=
  let n := nat_of_ascii c in
  if (n =? 34)%nat then [backslash_char; quote_char]
  else if (n =? 92)%nat then [backslash_char; backslash_char]
  else if (n =? 10)%nat then [backslash_char; "n"%char]
  else if (n =? 13)%nat then [backslash_char; "r"%char]
  else if (n =? 9)%nat then [backslash_char; "t"%char]
  else if (n =? 8)%nat then [backslash_char; "b"%char]
  else if (n =? 12)%nat then [backslash_char; "f"%char]
  else if ((n <? 32) || (126 <? n))%nat then
    [backslash_char; "u"%char; "0"%char; "0"%char;
     hex_char (n / 16); hex_char (n mod 16)]
  else [c].

(** [encode_basestring_ascii] *)
Definition encode_basestring_ascii (s : string) : list ascii :=
  quote_char :: flat_map escape_char (list_ascii_of_string s) ++ [quote_char].

(** [floatstr] *)
Definition floatstr (f : float) : list ascii :=
  match Prim2SF f with
  | S754_nan => list_ascii_of_string "NaN"
  | S754_infinity false => list_ascii_of_string "Infinity"
  | S754_infinity true => list_ascii_of_string "-Infinity"
  | _ => float_repr f
  end.

Definition newline_indent (level : nat) : list ascii :=
  newline_char :: repeat " "%char (2 * level).

(** A list or a dictionary with its items already encoded: each item on a
    line of its own, indented one step deeper, the closing bracket back at
    [level]; an empty container is the two brackets. *)
Definition block (opening closing : ascii) (level : nat)
    (items : list (list ascii)) : list ascii :=
  match items with
  | [] => [opening; closing]
  | x :: xs =>
      opening :: newline_indent (S level) ++ x
        ++ flat_map (fun y => ","%char :: newline_indent (S level) ++ y) xs
        ++ newline_indent level ++ [closing]
  end.

(** [_iterencode] at nesting depth [level]; tuples are written as lists. *)
Fixpoint encode (level : nat) (v : pyval) : list ascii :=
  match v with
  | PNone => list_ascii_of_string "null"
  | PBool true => list_ascii_of_string "true"
  | PBool false => list_ascii_of_string "false"
  | PInt z => int_repr z
  | PFloat f => floatstr f
  | PStr s => encode_basestring_ascii s
  | PList l => block "[" "]" level (map (encode (S level)) l)
  | PTuple l => block "[" "]" level (map (encode (S level)) l)
  | PDict d =>
      block "{" "}" level
        (map (fun kv => (encode_basestring_ascii (fst kv)
                           ++ ":"%char :: " "%char :: encode (S level) (snd kv))%list)
           d)
  end.

(** [json.dumps(obj, indent=2)] *)
Definition json_dumps (v : pyval) : string := string_of_list_ascii (encode 0 v).

(** ** [json.loads(text)]: reading the text back

    Modelled from Python's [json] decoder ([json.decoder], [json.scanner]);
    the scripts only write.  Strings are over the characters of [ascii]:
    a [\uXXXX] escape above [ÿ] is not read. *)

Definition is_ws (c : ascii) : bool :=
  Ascii.eqb c " " || Ascii.eqb c "009" || Ascii.eqb c "010" || Ascii.eqb c "013".

Fixpoint skip_ws (s : list ascii) : list ascii :=
  match s with
  | c :: s' => if is_ws c then skip_ws s' else s
  | [] => []
  end.

Definition is_digit (c : ascii) : bool :=
  ((48 <=? nat_of_ascii c) && (nat_of_ascii c <=? 57))%nat.

(** The longest run of digits at the front of [s], and what follows. *)
Fixpoint span_digits (s : list ascii) : list ascii * list ascii :=
  match s with
  | c :: s' =>
      if is_digit c then let '(ds, r) := span_digits s' in (c :: ds, r)
      else ([], s)
  | [] => ([], [])
  end.

Fixpoint uint_of_chars (ds : list ascii) : Decimal.uint :=
  match ds with
  | [] => Decimal.Nil
  | c :: ds' =>
      let u := uint_of_chars ds' in
      match (nat_of_ascii c - 48)%nat with
      | 0 => Decimal.D0 u | 1 => Decimal.D1 u | 2 => Decimal.D2 u
      | 3 => Decimal.D3 u | 4 => Decimal.D4 u | 5 => Decimal.D5 u
      | 6 => Decimal.D6 u | 7 => Decimal.D7 u | 8 => Decimal.D8 u
      | _ => Decimal.D9 u
      end%nat
  end.

(** The number a run of digits denotes. *)
Definition digits_value (ds : list ascii) : Z := Z.of_N (N.of_uint (uint_of_chars ds)).

(** An optional [-]. *)
Definition scan_sign (s : list ascii) : bool * list ascii :=
  match s with
  | c :: s' => if Ascii.eqb c "-" then (true, s') else (false, s)
  | [] => (false, s)
  end.

(** The integer part, [0|[1-9][0-9]*]. *)
Definition scan_int (s : list ascii) : option (list ascii * list ascii) :=
  match s with
  | c :: s' =>
      if Ascii.eqb c "0" then Some ([c], s')
      else if is_digit c then Some (span_digits s)
      else None
  | [] => None
  end.

(** The optional fraction, [\.[0-9]+]: its digits, none when absent. *)
Definition scan_frac (s : list ascii) : list ascii * list ascii :=
  match s with
  | c :: d :: s' =>
      if Ascii.eqb c "." && is_digit d then span_digits (d :: s') else ([], s)
  | _ => ([], s)
  end.

(** The optional exponent, [[eE][-+]?[0-9]+]. *)
Definition scan_exp (s : list ascii) : option Z * list ascii :=
  match s with
  | c :: s1 =>
      if Ascii.eqb c "e" || Ascii.eqb c "E" then
        let '(neg, s2) :=
          match s1 with
          | g :: s' =>
              if Ascii.eqb g "-" then (true, s')
              else if Ascii.eqb g "+" then (false, s')
              else (false, s1)
          | [] => (false, s1)
          end in
        match span_digits s2 with
        | ([], _) => (None, s)
        | (ds, r) => (Some (if neg then - digits_value ds else digits_value ds), r)
        end
      else (None, s)
  | [] => (None, s)
  end.

(** A number: an [int] when it has neither fraction nor exponent, a
    [float] otherwise. *)
Definition scan_number (s : list ascii) : option (pyval * list ascii) :=
  let '(neg, s1) := scan_sign s in
  match scan_int s1 with
  | None => None
  | Some (int_ds, s2) =>
      let '(frac_ds, s3) := scan_frac s2 in
      let '(exp, s4) := scan_exp s3 in
      match frac_ds, exp with
      | [], None =>
          Some (PInt (if neg then - digits_value int_ds else digits_value int_ds), s4)
      | _, _ =>
          Some (PFloat (strtod neg (digits_value (int_ds ++ frac_ds))
                          (match exp with Some e => e | None => 0 end
                           - Z.of_nat (length frac_ds))), s4)
      end
  end.

(** [s] without the prefix [p], when it has it. *)
Fixpoint strip_prefix (p s : list ascii) : option (list ascii) :=
  match p, s with
  | [], _ => Some s
  | c :: p', d :: s' => if Ascii.eqb c d then strip_prefix p' s' else None
  | _ :: _, [] => None
  end.

(** What the scanner tries when the text starts neither a string, nor a
    container, nor [null], [true], [false]: a number, then the constants
    [NaN], [Infinity] and [-Infinity]. *)
Definition scan_atom (s : list ascii) : option (pyval * list ascii) :=
  match scan_number s with
  | Some r => Some r
  | None =>
      match strip_prefix (list_ascii_of_string "NaN") s with
      | Some r => Some (PFloat nan, r)
      | None =>
          match strip_prefix (list_ascii_of_string "Infinity") s with
          | Some r => Some (PFloat infinity, r)
          | None =>
              match strip_prefix (list_ascii_of_string "-Infinity") s with
              | Some r => Some (PFloat neg_infinity, r)
              | None => None
              end
          end
      end
  end.

Definition hex_value (c : ascii) : option nat :=
  let n := nat_of_ascii c in
  if ((48 <=? n) && (n <=? 57))%nat then Some (n - 48)%nat
  else if ((97 <=? n) && (n <=? 102))%nat then Some (n - 87)%nat
  else if ((65 <=? n) && (n <=? 70))%nat then Some (n - 55)%nat
  else None.

(** The character after a backslash, for the escapes other than [\u]. *)
Definition unescape (c : ascii) : option ascii :=
  if Ascii.eqb c quote_char then Some quote_char
  else if Ascii.eqb c backslash_char then Some backslash_char
  else if Ascii.eqb c "/" then Some "/"%char
  else if Ascii.eqb c "b" then Some "008"%char
  else if Ascii.eqb c "f" then Some "012"%char
  else if Ascii.eqb c "n" then Some "010"%char
  else if Ascii.eqb c "r" then Some "013"%char
  else if Ascii.eqb c "t" then Some "009"%char
  else None.

(** [scanstring] (strict), from just after the opening quote: the
    characters of the string and the text after the closing quote. *)
Fixpoint scanstring (s : list ascii) : option (list ascii * list ascii) :=
  match s with
  | [] => None
  | c :: s1 =>
      if Ascii.eqb c quote_char then Some ([], s1)
      else if Ascii.eqb c backslash_char then
        match s1 with
        | e :: s2 =>
            if Ascii.eqb e "u" then
              match s2 with
              | h1 :: h2 :: h3 :: h4 :: s3 =>
                  match hex_value h1, hex_value h2, hex_value h3, hex_value h4 with
                  | Some a, Some b, Some c', Some d =>
                      let n := (((a * 16 + b) * 16 + c') * 16 + d)%nat in
                      if (n <? 256)%nat then
                        match scanstring s3 with
                        | Some (cs, r) => Some (ascii_of_nat n :: cs, r)
                        | None => None
                        end
                      else None
                  | _, _, _, _ => None
                  end
              | _ => None
              end
            else
              match unescape e with
              | Some c' =>
                  match scanstring s2 with
                  | Some (cs, r) => Some (c' :: cs, r)
                  | None => None
                  end
              | None => None
              end
        | [] => None
        end
      else if (nat_of_ascii c <? 32)%nat then None
      else
        match scanstring s1 with
        | Some (cs, r) => Some (c :: cs, r)
        | None => None
        end
  end.

(** [scan_once], [JSONArray] and [JSONObject].  [scan_items] reads the
    items of a list from the first one on, [scan_pairs] the items of a
    dictionary from just after the opening quote of the first key.  Each
    call spends one unit of [fuel]. *)
Fixpoint scan_once (fuel : nat) (s : list ascii) : option (pyval * list ascii) :=
  match fuel with
  | O => None
  | S fuel' =>
      match s with
      | [] => None
      | c :: s1 =>
          if Ascii.eqb c quote_char then
            match scanstring s1 with
            | Some (cs, r) => Some (PStr (string_of_list_ascii cs), r)
            | None => None
            end
          else if Ascii.eqb c "{" then
            match skip_ws s1 with
            | q :: s2 =>
                if Ascii.eqb q "}" then Some (PDict [], s2)
                else if Ascii.eqb q quote_char then
                  match scan_pairs fuel' s2 with
                  | Some (pairs, r) => Some (dict_display pairs, r)
                  | None => None
                  end
                else None
            | [] => None
            end
          else if Ascii.eqb c "[" then
            match skip_ws s1 with
            | q :: s2 =>
                if Ascii.eqb q "]" then Some (PList [], s2)
                else
                  match scan_items fuel' (q :: s2) with
                  | Some (items, r) => Some (PList items, r)
                  | None => None
                  end
            | [] => None
            end
          else
            match strip_prefix (list_ascii_of_string "null") s with
            | Some r => Some (PNone, r)
            | None =>
                match strip_prefix (list_ascii_of_string "true") s with
                | Some r => Some (PBool true, r)
                | None =>
                    match strip_prefix (list_ascii_of_string "false") s with
                    | Some r => Some (PBool false, r)
                    | None => scan_atom s
                    end
                end
            end
      end
  end
with scan_items (fuel : nat) (s : list ascii) : option (list pyval * list ascii) :=
  match fuel with
  | O => None
  | S fuel' =>
      match scan_once fuel' s with
      | Some (v, s1) =>
          match skip_ws s1 with
          | c :: s2 =>
              if Ascii.eqb c "]" then Some ([v], s2)
              else if Ascii.eqb c "," then
                match scan_items fuel' (skip_ws s2) with
                | Some (vs, r) => Some (v :: vs, r)
                | None => None
                end
              else None
          | [] => None
          end
      | None => None
      end
  end
with scan_pairs (fuel : nat) (s : list ascii)
    : option (list (string * pyval) * list ascii) :=
  match fuel with
  | O => None
  | S fuel' =>
      match scanstring s with
      | Some (k, s1) =>
          match skip_ws s1 with
          | c :: s2 =>
              if Ascii.eqb c ":" then
                match scan_once fuel' (skip_ws s2) with
                | Some (v, s3) =>
                    match skip_ws s3 with
                    | d :: s4 =>
                        if Ascii.eqb d "}" then
                          Some ([(string_of_list_ascii k, v)], s4)
                        else if Ascii.eqb d "," then
                          match skip_ws s4 with
                          | q :: s5 =>
                              if Ascii.eqb q quote_char then
                                match scan_pairs fuel' s5 with
                                | Some (pairs, r) =>
                                    Some ((string_of_list_ascii k, v) :: pairs, r)
                                | None => None
                                end
                              else None
                          | [] => None
                          end
                        else None
                    | [] => None
                    end
                | None => None
                end
              else None
          | [] => None
          end
      | None => None
      end
  end.

(** [json.loads(text)]: leading blanks, one value, trailing blanks, and
    nothing more.  The text is long enough a supply of fuel. *)
Definition json_loads (text : string) : option pyval :=
  let s := skip_ws (list_ascii_of_string text) in
  match scan_once (S (length s)) s with
  | Some (v, r) => match skip_ws r with [] => Some v | _ :: _ => None end
  | None => None
  end.

(** ** Wall clock: [datetime.now().isoformat()] *)

Record datetime : Type := {
  year : Z; month : Z; day : Z;
  hour : Z; minute : Z; second : Z; microsecond : Z
}.

(** The [n] low decimal digits of [z], most significant first ([%0nd] for
    a non-negative [z] below [10^n]). *)
Fixpoint zero_padded (n : nat) (z : Z) : string :=
  match n with
  | O => ""
  | S n' => zero_padded n' (z / 10) +:+ String (digit_char (z mod 10)) ""
  end.

(** [datetime.isoformat()] of a naive datetime: the fraction is printed
    only when the microsecond field is not zero. *)
Definition isoformat (t : datetime) : string :=
  zero_padded 4 (year t) +:+ "-" +:+ zero_padded 2 (month t) +:+ "-" +:+
  zero_padded 2 (day t) +:+ "T" +:+ zero_padded 2 (hour t) +:+ ":" +:+
  zero_padded 2 (minute t) +:+ ":" +:+ zero_padded 2 (second t) +:+
  (if microsecond t =? 0 then "" else "." +:+ zero_padded 6 (microsecond t)).

(** ** The world the scripts run in *)

(** [wall_clock n] is what the [n]-th call of [datetime.now()] returns,
    [clock_reads] counts the calls made so far; [fs_dirs] are the existing
    directories, [fs_files] the regular files with their contents;
    [stdout] holds the printed lines, oldest first. *)
Record world : Type := {
  wall_clock : nat -> datetime;
  clock_reads : nat;
  fs_dirs : gset string;
  fs_files : gmap string string;
  stdout : list string
}.

Inductive result (A : Type) : Type :=
| Ok (a : A) (w : world)
| Raise (e : pyerr).
Arguments Ok {A} a w.
Arguments Raise {A} e.

Definition M (A : Type) : Type := world -> result A.

Definition ret {A} (a : A) : M A := fun w => Ok a w.
Definition raise {A} (e : pyerr) : M A := fun _ => Raise e.
Definition bind {A B} (m : M A) (k : A -> M B) : M B :=
  fun w => match m w with
           | Ok a w' => k a w'
           | Raise e => Raise e
           end.

Notation "'let*' x ':=' m 'in' k" := (bind m (fun x => k))
  (at level 10, x name, m at level 100, k at level 200).
Notation "m ';;' k" := (bind m (fun _ => k))
  (at level 100, k at level 200, right associativity).

(** A list display: the element expressions are evaluated left to right. *)
Fixpoint sequence {A} (ms : list (M A)) : M (list A) :=
  match ms with
  | [] => ret []
  | m :: ms' => let* a := m in let* l := sequence ms' in ret (a :: l)
  end.

(** [for x in xs: body(x)] *)
Fixpoint for_each {A} (xs : list A) (body : A -> M unit) : M unit :=
  match xs with
  | [] => ret tt
  | x :: xs' => body x ;; for_each xs' body
  end.

(** [datetime.now()]: one reading of the ambient clock. *)
Definition datetime_now : M datetime :=
  fun w => Ok (wall_clock w (clock_reads w))
              {| wall_clock := wall_clock w; clock_reads := S (clock_reads w);
                 fs_dirs := fs_dirs w; fs_files := fs_files w; stdout := stdout w |}.

(** The world with one more line on the console. *)
Definition printed (line : string) (w : world) : world :=
  {| wall_clock := wall_clock w; clock_reads := clock_reads w;
     fs_dirs := fs_dirs w; fs_files := fs_files w;
     stdout := (stdout w ++ [line])%list |}.

(** [print(line)] *)
Definition print (line : string) : M unit := fun w => Ok tt (printed line w).

(** [v[k]] for a string key. *)
Definition subscript (v : pyval) (k : string) : M pyval :=
  match v with
  | PDict d => match assoc k d with Some x => ret x | None => raise KeyError end
  | _ => raise TypeError
  end.

(** [v[k1][k2] = x]: the inner dictionary is shared with the outer one,
    so the assignment shows in [v]. *)
Definition setitem_nested (v : pyval) (k1 k2 : string) (x : pyval) : M pyval :=
  let* inner := subscript v k1 in
  match v, inner with
  | PDict d, PDict d1 => ret (PDict (assoc_set k1 (PDict (assoc_set k2 x d1)) d))
  | _, _ => raise TypeError
  end.

(** *** Strings *)

Fixpoint replace_char (old new : ascii) (s : string) : string :=
  match s with
  | EmptyString => EmptyString
  | String c s' =>
      String (if Ascii.eqb c old then new else c) (replace_char old new s')
  end.

(** [v.replace(old, new)] for one-character [old] and [new]; only a [str]
    has the method here. *)
Definition str_replace (v : pyval) (old new : ascii) : M pyval :=
  match v with
  | PStr s => ret (PStr (replace_char old new s))
  | _ => raise AttributeError
  end.

(** [f"{v}"] for a value that is a [str] (the only case the writer
    reaches: the value has been through [.replace] before). *)
Definition format_str (v : pyval) : M string :=
  match v with
  | PStr s => ret s
  | _ => raise TypeError
  end.

(** [c * n] *)
Fixpoint repeat_char (c : ascii) (n : nat) : string :=
  match n with
  | O => EmptyString
  | S n' => String c (repeat_char c n')
  end.

(** The check mark U+2713 the scripts print, as its three UTF-8 bytes. *)
Definition check_mark : string :=
  String "226"%char (String "156"%char (String "147"%char EmptyString)).

Definition newline : string := String newline_char EmptyString.

(** *** Paths and files *)

Definition is_sep (c : ascii) : bool := Ascii.eqb c "/"%char.

Definition starts_with_sep (s : string) : bool :=
  match s with
  | String c _ => is_sep c
  | EmptyString => false
  end.

Fixpoint ends_with_sep (s : string) : bool :=
  match s with
  | EmptyString => false
  | String c EmptyString => is_sep c
  | String _ s' => ends_with_sep s'
  end.

(** [os.path.join(a, b)] (POSIX) *)
Definition path_join (a b : string) : string :=
  if starts_with_sep b then b
  else if String.eqb a "" || ends_with_sep a then a +:+ b
  else a +:+ "/" +:+ b.

(** [p[:p.rfind('/') + 1]] *)
Fixpoint upto_last_sep (p : list ascii) : list ascii :=
  match p with
  | [] => []
  | c :: p' =>
      match upto_last_sep p' with
      | [] => if is_sep c then [c] else []
      | h => c :: h
      end
  end.

(** [s.rstrip('/')] *)
Fixpoint rstrip_sep (s : list ascii) : list ascii :=
  match s with
  | [] => []
  | c :: s' =>
      match rstrip_sep s' with
      | [] => if is_sep c then [] else [c]
      | t => c :: t
      end
  end.

(** [os.path.dirname(p)] (POSIX) *)
Definition dirname (p : string) : string :=
  let head := upto_last_sep (list_ascii_of_string p) in
  string_of_list_ascii (if forallb is_sep head then head else rstrip_sep head).

(** [with open(path, 'w') as f: f.write(text)]: the directory of [path]
    must exist (the empty one is the working directory), [path] must not be
    a directory; the file is created or replaced. *)
Definition written (path text : string) (w : world) : world :=
  {| wall_clock := wall_clock w; clock_reads := clock_reads w;
     fs_dirs := fs_dirs w;
     fs_files := <[path := text]> (fs_files w);
     stdout := stdout w |}.

Definition write_file (path text : string) : M unit :=
  fun w =>
    if bool_decide (path ∈ fs_dirs w) then Raise IsADirectoryError
    else if String.eqb (dirname path) "" || bool_decide (dirname path ∈ fs_dirs w)
    then Ok tt (written path text w)
    else Raise FileNotFoundError.

(** ** Calls with keyword arguments *)

Definition kwargs : Type := list (string * pyval).

(** The value bound to parameter [k]: the keyword argument when the call
    has one, the declared default otherwise. *)
Definition kwarg (kw : kwargs) (k : string) (default : pyval) : pyval :=
  match assoc k kw with Some v => v | None => default end.

Definition mem_string (k : string) (l : list string) : bool :=
  existsb (String.eqb k) l.

(** A keyword that names no parameter makes the call raise [TypeError]. *)
Definition check_kwargs (params : list string) (kw : kwargs) : M unit :=
  if forallb (fun kv => mem_string (fst kv) params) kw then ret tt
  else raise TypeError.

(** The 23 keys of the ["parameters"] dictionary, in display order. *)
Definition parameter_schema : list string :=
  [ "num_voices"; "master_gain"; "language"; "lyrics"; "synthesis_method";
    "formant_mix"; "subharmonic_mix"; "stereo_width"; "vibrato_rate";
    "vibrato_depth"; "reverb_mix"; "reverb_size"; "attack_time";
    "release_time"; "enable_anti_aliasing"; "enable_spectral_enhancement";
    "oversampling_factor"; "pitch_variation"; "timing_variation";
    "formant_variation"; "breathiness"; "warmth"; "brightness" ].

(** ** [additional_presets.py] *)
Module Additional.

Definition optional_params : list string :=
  [ "num_voices"; "formant_mix"; "subharmonic_mix"; "stereo_width";
    "vibrato_rate"; "vibrato_depth"; "reverb_mix"; "reverb_size"; "attack";
    "release"; "pitch_variation"; "timing_variation"; "formant_variation";
    "breathiness"; "warmth"; "brightness"; "tags" ].

Definition create_preset (name description language synthesis_method lyrics : pyval)
    (kw : kwargs) : M pyval :=
  check_kwargs optional_params kw ;;
  let num_voices := kwarg kw "num_voices" (PInt 8) in
  let formant_mix := kwarg kw "formant_mix" (PInt 80) in
  let subharmonic_mix := kwarg kw "subharmonic_mix" (PInt 20) in
  let stereo_width := kwarg kw "stereo_width" (PInt 75) in
  let vibrato_rate := kwarg kw "vibrato_rate" (PFloat 6.0) in
  let vibrato_depth := kwarg kw "vibrato_depth" (PFloat 30.0) in
  let reverb_mix := kwarg kw "reverb_mix" (PInt 25) in
  let reverb_size := kwarg kw "reverb_size" (PInt 50) in
  let attack := kwarg kw "attack" (PInt 50) in
  let release := kwarg kw "release" (PInt 200) in
  let pitch_variation := kwarg kw "pitch_variation" (PInt 10) in
  let timing_variation := kwarg kw "timing_variation" (PInt 5) in
  let formant_variation := kwarg kw "formant_variation" (PInt 15) in
  let breathiness := kwarg kw "breathiness" (PInt 10) in
  let warmth := kwarg kw "warmth" (PInt 20) in
  let brightness := kwarg kw "brightness" (PInt 50) in
  let tags := kwarg kw "tags" PNone in
  let* created := datetime_now in
  let* modified := datetime_now in
  let preset := dict_display [
    ("metadata", dict_display [
       ("name", name);
       ("author", PStr "Bret Bouchard");
       ("description", description);
       ("version", PStr "2.0.0");
       ("category", PStr "Factory");
       ("tags", py_or tags (PList []));
       ("created_date", PStr (isoformat created));
       ("modified_date", PStr (isoformat modified));
       ("plugin_version", PStr "2.0.0") ]);
    ("parameters", dict_display [
       ("num_voices", num_voices);
       ("master_gain", PFloat (-3.0));
       ("language", language);
       ("lyrics", lyrics);
       ("synthesis_method", synthesis_method);
       ("formant_mix", formant_mix);
       ("subharmonic_mix", subharmonic_mix);
       ("stereo_width", stereo_width);
       ("vibrato_rate", vibrato_rate);
       ("vibrato_depth", vibrato_depth);
       ("reverb_mix", reverb_mix);
       ("reverb_size", reverb_size);
       ("attack_time", attack);
       ("release_time", release);
       ("enable_anti_aliasing", PBool true);
       ("enable_spectral_enhancement", PBool true);
       ("oversampling_factor", PFloat 1.0);
       ("pitch_variation", pitch_variation);
       ("timing_variation", timing_variation);
       ("formant_variation", formant_variation);
       ("breathiness", breathiness);
       ("warmth", warmth);
       ("brightness", brightness) ]);
    ("is_factory", PBool true);
    ("is_read_only", PBool true) ] in
  ret preset.

(** The first statement of [save_preset]:
    [filename = f"{preset['metadata']['name'].replace(' ', '_').replace('/', '_')}.choirv2"] *)
Definition derive_filename (preset : pyval) : M string :=
  let* metadata := subscript preset "metadata" in
  let* name := subscript metadata "name" in
  let* no_spaces := str_replace name " "%char "_"%char in
  let* no_seps := str_replace no_spaces "/"%char "_"%char in
  let* stem := format_str no_seps in
  ret (stem +:+ ".choirv2").

(** [def save_preset(preset, directory)].  [json.dump] cannot fail on the
    values of [pyval], so the file is written in one step. *)
Definition save_preset (preset : pyval) (directory : string) : M unit :=
  let* filename := derive_filename preset in
  let filepath := path_join directory filename in
  write_file filepath (json_dumps preset) ;;
  let* metadata' := subscript preset "metadata" in
  let* name' := subscript metadata' "name" in
  let* shown := format_str name' in
  print (check_mark +:+ " Created: " +:+ shown).

(** The module-level list: its seven calls run when the script is loaded. *)
Definition additional_presets : M (list pyval) := sequence [
  create_preset (PStr "Arabic 1: Quran Recitation")
    (PStr "Traditional Quranic recitation style")
    (PStr "arabic") (PStr "formant") (PStr "ah eh ee oh oo")
    [ ("num_voices", PInt 4); ("formant_mix", PInt 100);
      ("subharmonic_mix", PInt 0); ("stereo_width", PInt 50);
      ("vibrato_rate", PFloat 5.0); ("vibrato_depth", PInt 18);
      ("reverb_mix", PInt 35); ("reverb_size", PInt 60); ("attack", PInt 70);
      ("release", PInt 300); ("pitch_variation", PInt 5);
      ("timing_variation", PInt 3); ("breathiness", PInt 12);
      ("warmth", PInt 55); ("brightness", PInt 45);
      ("tags", PList [
         PStr "arabic"; PStr "quran"; PStr "recitation"; PStr "traditional";
         PStr "islamic"]) ];
  create_preset (PStr "Hebrew 1: Synagogue Chant")
    (PStr "Traditional Jewish synagogue chanting")
    (PStr "hebrew") (PStr "formant") (PStr "ah eh ee oh")
    [ ("num_voices", PInt 8); ("formant_mix", PInt 98);
      ("subharmonic_mix", PInt 2); ("stereo_width", PInt 60);
      ("vibrato_rate", PFloat 4.8); ("vibrato_depth", PInt 16);
      ("reverb_mix", PInt 32); ("reverb_size", PInt 55); ("attack", PInt 85);
      ("release", PInt 320); ("pitch_variation", PInt 6);
      ("timing_variation", PInt 4); ("breathiness", PInt 14);
      ("warmth", PInt 52); ("brightness", PInt 40);
      ("tags", PList [
         PStr "hebrew"; PStr "synagogue"; PStr "jewish"; PStr "chant";
         PStr "traditional"]) ];
  create_preset (PStr "Sanskrit 1: Vedic Chant")
    (PStr "Ancient Vedic mantra chanting")
    (PStr "hindi") (PStr "formant") (PStr "ah eh ih oh oo")
    [ ("num_voices", PInt 6); ("formant_mix", PInt 100);
      ("subharmonic_mix", PInt 0); ("stereo_width", PInt 55);
      ("vibrato_rate", PFloat 4.5); ("vibrato_depth", PInt 12);
      ("reverb_mix", PInt 38); ("reverb_size", PInt 65); ("attack", PInt 95);
      ("release", PInt 380); ("pitch_variation", PInt 4);
      ("timing_variation", PInt 3); ("breathiness", PInt 16);
      ("warmth", PInt 58); ("brightness", PInt 38);
      ("tags", PList [
         PStr "hindi"; PStr "sanskrit"; PStr "vedic"; PStr "chant";
         PStr "mantra"; PStr "meditation"]) ];
  create_preset (PStr "Spanish 1: Flamenco Choir")
    (PStr "Traditional flamenco cantaor voices")
    (PStr "spanish") (PStr "diphone") (PStr "ah-eh ee-oh oh-ay")
    [ ("num_voices", PInt 6); ("formant_mix", PInt 94);
      ("subharmonic_mix", PInt 6); ("stereo_width", PInt 68);
      ("vibrato_rate", PFloat 7.2); ("vibrato_depth", PInt 32);
      ("reverb_mix", PInt 15); ("reverb_size", PInt 30); ("attack", PInt 20);
      ("release", PInt 140); ("pitch_variation", PInt 10);
      ("timing_variation", PInt 5); ("breathiness", PInt 8);
      ("warmth", PInt 48); ("brightness", PInt 65);
      ("tags", PList [
         PStr "spanish"; PStr "flamenco"; PStr "cantaor"; PStr "traditional";
         PStr "passionate"]) ];
  create_preset (PStr "French 1: Chorale Francaise")
    (PStr "French romantic chorale style")
    (PStr "french") (PStr "formant") (PStr "ah eh ee oh oo")
    [ ("num_voices", PInt 24); ("formant_mix", PInt 96);
      ("subharmonic_mix", PInt 4); ("stereo_width", PInt 78);
      ("vibrato_rate", PFloat 5.8); ("vibrato_depth", PInt 24);
      ("reverb_mix", PInt 28); ("reverb_size", PInt 48); ("attack", PInt 48);
      ("release", PInt 210); ("pitch_variation", PInt 11);
      ("timing_variation", PInt 5); ("breathiness", PInt 11);
      ("warmth", PInt 46); ("brightness", PInt 58);
      ("tags", PList [
         PStr "french"; PStr "chorale"; PStr "romantic"; PStr "ensemble"]) ];
  create_preset (PStr "German 1: Lieder Choir")
    (PStr "German lied art song style")
    (PStr "german") (PStr "diphone") (PStr "ah-eh ee-oh oh-oo")
    [ ("num_voices", PInt 12); ("formant_mix", PInt 93);
      ("subharmonic_mix", PInt 7); ("stereo_width", PInt 72);
      ("vibrato_rate", PFloat 6.3); ("vibrato_depth", PInt 26);
      ("reverb_mix", PInt 22); ("reverb_size", PInt 42); ("attack", PInt 42);
      ("release", PInt 190); ("pitch_variation", PInt 9);
      ("timing_variation", PInt 4); ("breathiness", PInt 9);
      ("warmth", PInt 44); ("brightness", PInt 62);
      ("tags", PList [
         PStr "german"; PStr "lieder"; PStr "art-song"; PStr "romantic"]) ];
  create_preset (PStr "Russian 1: Orthodox Choir")
    (PStr "Russian Orthodox church choir")
    (PStr "russian") (PStr "formant") (PStr "ah eh ee oh oo")
    [ ("num_voices", PInt 16); ("formant_mix", PInt 100);
      ("subharmonic_mix", PInt 0); ("stereo_width", PInt 65);
      ("vibrato_rate", PFloat 4.2); ("vibrato_depth", PInt 14);
      ("reverb_mix", PInt 42); ("reverb_size", PInt 75); ("attack", PInt 90);
      ("release", PInt 360); ("pitch_variation", PInt 5);
      ("timing_variation", PInt 3); ("breathiness", PInt 10);
      ("warmth", PInt 62); ("brightness", PInt 38);
      ("tags", PList [
         PStr "russian"; PStr "orthodox"; PStr "church"; PStr "choir";
         PStr "traditional"]) ]
].

Definition preset_dir : string :=
  "/Users/bretbouchard/apps/schill/choir-v2-universal/presets/factory".

(** [def main()] *)
Definition main (additional_presets : list pyval) : M unit :=
  print (newline +:+ "Adding Additional Language Presets...") ;;
  print (repeat_char "="%char 60) ;;
  for_each additional_presets (fun preset => save_preset preset preset_dir) ;;
  print (repeat_char "="%char 60) ;;
  print (newline +:+ check_mark +:+ " Added "
           +:+ string_of_list_ascii (int_repr (Z.of_nat (length additional_presets)))
           +:+ " additional presets!").

(** The script run as a program: the list, then [main()]. *)
Definition script : M unit :=
  let* presets := additional_presets in
  main presets.

End Additional.

(** ** [generate_gender_presets.py] *)
Module Gender.

Definition optional_params : list string :=
  [ "num_voices"; "formant_mix"; "subharmonic_mix"; "stereo_width";
    "vibrato_rate"; "vibrato_depth"; "reverb_mix"; "reverb_size"; "attack";
    "release"; "pitch_variation"; "timing_variation"; "formant_variation";
    "breathiness"; "warmth"; "brightness"; "gender_balance"; "voice_types";
    "tags" ].

Definition create_preset (name description language synthesis_method lyrics : pyval)
    (kw : kwargs) : M pyval :=
  check_kwargs optional_params kw ;;
  let num_voices := kwarg kw "num_voices" (PInt 8) in
  let formant_mix := kwarg kw "formant_mix" (PInt 80) in
  let subharmonic_mix := kwarg kw "subharmonic_mix" (PInt 20) in
  let stereo_width := kwarg kw "stereo_width" (PInt 75) in
  let vibrato_rate := kwarg kw "vibrato_rate" (PFloat 6.0) in
  let vibrato_depth := kwarg kw "vibrato_depth" (PFloat 30.0) in
  let reverb_mix := kwarg kw "reverb_mix" (PInt 25) in
  let reverb_size := kwarg kw "reverb_size" (PInt 50) in
  let attack := kwarg kw "attack" (PInt 50) in
  let release := kwarg kw "release" (PInt 200) in
  let pitch_variation := kwarg kw "pitch_variation" (PInt 10) in
  let timing_variation := kwarg kw "timing_variation" (PInt 5) in
  let formant_variation := kwarg kw "formant_variation" (PInt 15) in
  let breathiness := kwarg kw "breathiness" (PInt 10) in
  let warmth := kwarg kw "warmth" (PInt 20) in
  let brightness := kwarg kw "brightness" (PInt 50) in
  let gender_balance := kwarg kw "gender_balance" PNone in
  let voice_types := kwarg kw "voice_types" PNone in
  let tags := kwarg kw "tags" PNone in
  let* created := datetime_now in
  let* modified := datetime_now in
  let preset := dict_display [
    ("metadata", dict_display [
       ("name", name);
       ("author", PStr "Bret Bouchard");
       ("description", description);
       ("version", PStr "2.0.0");
       ("category", PStr "Gender");
       ("tags", py_or tags (PList []));
       ("created_date", PStr (isoformat created));
       ("modified_date", PStr (isoformat modified));
       ("plugin_version", PStr "2.0.0") ]);
    ("parameters", dict_display [
       ("num_voices", num_voices);
       ("master_gain", PFloat (-3.0));
       ("language", language);
       ("lyrics", lyrics);
       ("synthesis_method", synthesis_method);
       ("formant_mix", formant_mix);
       ("subharmonic_mix", subharmonic_mix);
       ("stereo_width", stereo_width);
       ("vibrato_rate", vibrato_rate);
       ("vibrato_depth", vibrato_depth);
       ("reverb_mix", reverb_mix);
       ("reverb_size", reverb_size);
       ("attack_time", attack);
       ("release_time", release);
       ("enable_anti_aliasing", PBool true);
       ("enable_spectral_enhancement", PBool true);
       ("oversampling_factor", PFloat 1.0);
       ("pitch_variation", pitch_variation);
       ("timing_variation", timing_variation);
       ("formant_variation", formant_variation);
       ("breathiness", breathiness);
       ("warmth", warmth);
       ("brightness", brightness) ]);
    ("is_factory", PBool true);
    ("is_read_only", PBool true) ] in
  (* Add gender balance controls if specified *)
  let* preset :=
    if truthy gender_balance
    then setitem_nested preset "parameters" "gender_balance" gender_balance
    else ret preset in
  (* Add voice type distribution if specified *)
  let* preset :=
    if truthy voice_types
    then setitem_nested preset "parameters" "voice_types" voice_types
    else ret preset in
  ret preset.

(** The first statement of [save_preset]:
    [filename = f"{preset['metadata']['name'].replace(' ', '_').replace('/', '_')}.choirv2"] *)
Definition derive_filename (preset : pyval) : M string :=
  let* metadata := subscript preset "metadata" in
  let* name := subscript metadata "name" in
  let* no_spaces := str_replace name " "%char "_"%char in
  let* no_seps := str_replace no_spaces "/"%char "_"%char in
  let* stem := format_str no_seps in
  ret (stem +:+ ".choirv2").

(** [def save_preset(preset, directory)].  [json.dump] cannot fail on the
    values of [pyval], so the file is written in one step. *)
Definition save_preset (preset : pyval) (directory : string) : M unit :=
  let* filename := derive_filename preset in
  let filepath := path_join directory filename in
  write_file filepath (json_dumps preset) ;;
  let* metadata' := subscript preset "metadata" in
  let* name' := subscript metadata' "name" in
  let* shown := format_str name' in
  print (check_mark +:+ " Created: " +:+ shown).

(** The five module-level lists, built in this order when the script is
    loaded. *)
Definition male_presets : M (list pyval) := sequence [
  create_preset (PStr "Male 1: Bass")
    (PStr "Deep male bass voice (F2-E4, 85-330 Hz)")
    (PStr "english") (PStr "formant") (PStr "oh oo ah")
    [ ("num_voices", PInt 4); ("formant_mix", PInt 100);
      ("subharmonic_mix", PInt 0); ("stereo_width", PInt 60);
      ("vibrato_rate", PFloat 4.5); ("vibrato_depth", PInt 18);
      ("reverb_mix", PInt 20); ("reverb_size", PInt 40); ("attack", PInt 80);
      ("release", PInt 300); ("pitch_variation", PInt 5);
      ("timing_variation", PInt 3); ("formant_variation", PInt 8);
      ("breathiness", PInt 5); ("warmth", PInt 70); ("brightness", PInt 20);
      ("voice_types", dict_display [("bass", PInt 100)]);
      ("tags", PList [
         PStr "male"; PStr "bass"; PStr "low"; PStr "deep"; PStr "choir"]) ];
  create_preset (PStr "Male 2: Baritone")
    (PStr "Male baritone voice (A2-F4, 110-350 Hz)")
    (PStr "english") (PStr "formant") (PStr "oh oo ah eh")
    [ ("num_voices", PInt 6); ("formant_mix", PInt 100);
      ("subharmonic_mix", PInt 0); ("stereo_width", PInt 65);
      ("vibrato_rate", PFloat 5.0); ("vibrato_depth", PInt 22);
      ("reverb_mix", PInt 22); ("reverb_size", PInt 45); ("attack", PInt 60);
      ("release", PInt 250); ("pitch_variation", PInt 8);
      ("timing_variation", PInt 4); ("formant_variation", PInt 10);
      ("breathiness", PInt 8); ("warmth", PInt 55); ("brightness", PInt 35);
      ("voice_types", dict_display [("baritone", PInt 100)]);
      ("tags", PList [
         PStr "male"; PStr "baritone"; PStr "medium-low"; PStr "versatile"]) ];
  create_preset (PStr "Male 3: Tenor")
    (PStr "Male tenor voice (C3-C5, 130-520 Hz)")
    (PStr "english") (PStr "formant") (PStr "ah eh ee oh")
    [ ("num_voices", PInt 8); ("formant_mix", PInt 100);
      ("subharmonic_mix", PInt 0); ("stereo_width", PInt 70);
      ("vibrato_rate", PFloat 5.8); ("vibrato_depth", PInt 26);
      ("reverb_mix", PInt 25); ("reverb_size", PInt 50); ("attack", PInt 45);
      ("release", PInt 200); ("pitch_variation", PInt 10);
      ("timing_variation", PInt 5); ("formant_variation", PInt 12);
      ("breathiness", PInt 10); ("warmth", PInt 40); ("brightness", PInt 50);
      ("voice_types", dict_display [("tenor", PInt 100)]);
      ("tags", PList [
         PStr "male"; PStr "tenor"; PStr "high"; PStr "bright"; PStr "opera"]) ];
  create_preset (PStr "Male 4: Countertenor")
    (PStr "Male countertenor (falsetto, G3-E5, 196-660 Hz)")
    (PStr "english") (PStr "formant") (PStr "ah eh ee oh oo")
    [ ("num_voices", PInt 4); ("formant_mix", PInt 100);
      ("subharmonic_mix", PInt 0); ("stereo_width", PInt 75);
      ("vibrato_rate", PFloat 6.5); ("vibrato_depth", PInt 30);
      ("reverb_mix", PInt 30); ("reverb_size", PInt 55); ("attack", PInt 40);
      ("release", PInt 180); ("pitch_variation", PInt 12);
      ("timing_variation", PInt 6); ("formant_variation", PInt 15);
      ("breathiness", PInt 18); ("warmth", PInt 35); ("brightness", PInt 60);
      ("voice_types", dict_display [("countertenor", PInt 100)]);
      ("tags", PList [
         PStr "male"; PStr "countertenor"; PStr "falsetto"; PStr "high";
         PStr "opera"]) ];
  create_preset (PStr "Male 5: SATB Choir")
    (PStr "Traditional male SATB choir (Bass-Baritone-Tenor-Tenor)")
    (PStr "english") (PStr "diphone") (PStr "oh-ah ah-eh ee-oh")
    [ ("num_voices", PInt 12); ("formant_mix", PInt 100);
      ("subharmonic_mix", PInt 0); ("stereo_width", PInt 80);
      ("vibrato_rate", PFloat 5.5); ("vibrato_depth", PInt 24);
      ("reverb_mix", PInt 35); ("reverb_size", PInt 65); ("attack", PInt 55);
      ("release", PInt 220); ("pitch_variation", PInt 10);
      ("timing_variation", PInt 5); ("formant_variation", PInt 12);
      ("breathiness", PInt 8); ("warmth", PInt 50); ("brightness", PInt 45);
      ("voice_types", dict_display [
         ("bass", PInt 25); ("baritone", PInt 25); ("tenor", PInt 50)]);
      ("tags", PList [
         PStr "male"; PStr "satb"; PStr "choir"; PStr "ensemble";
         PStr "traditional"]) ];
  create_preset (PStr "Male 6: Gospel Tenor")
    (PStr "Soulful gospel tenor with bright timbre")
    (PStr "english") (PStr "diphone") (PStr "ah eh ee oh")
    [ ("num_voices", PInt 8); ("formant_mix", PInt 95);
      ("subharmonic_mix", PInt 5); ("stereo_width", PInt 85);
      ("vibrato_rate", PFloat 7.0); ("vibrato_depth", PInt 35);
      ("reverb_mix", PInt 28); ("reverb_size", PInt 48); ("attack", PInt 30);
      ("release", PInt 170); ("pitch_variation", PInt 15);
      ("timing_variation", PInt 7); ("breathiness", PInt 15);
      ("warmth", PInt 45); ("brightness", PInt 70);
      ("voice_types", dict_display [("tenor", PInt 100)]);
      ("tags", PList [
         PStr "male"; PStr "gospel"; PStr "tenor"; PStr "soul"; PStr "bright"]) ];
  create_preset (PStr "Male 7: Pop Baritone")
    (PStr "Modern pop baritone backing vocals")
    (PStr "english") (PStr "diphone") (PStr "oh ah eh")
    [ ("num_voices", PInt 6); ("formant_mix", PInt 90);
      ("subharmonic_mix", PInt 10); ("stereo_width", PInt 70);
      ("vibrato_rate", PFloat 6.2); ("vibrato_depth", PInt 28);
      ("reverb_mix", PInt 18); ("reverb_size", PInt 35); ("attack", PInt 25);
      ("release", PInt 150); ("pitch_variation", PInt 8);
      ("timing_variation", PInt 4); ("breathiness", PInt 8);
      ("warmth", PInt 40); ("brightness", PInt 60);
      ("voice_types", dict_display [("baritone", PInt 100)]);
      ("tags", PList [
         PStr "male"; PStr "pop"; PStr "baritone"; PStr "backing-vocals";
         PStr "modern"]) ];
  create_preset (PStr "Male 8: Russian Bass")
    (PStr "Deep Russian Orthodox bass (oktavist)")
    (PStr "russian") (PStr "formant") (PStr "oh oo")
    [ ("num_voices", PInt 6); ("formant_mix", PInt 100);
      ("subharmonic_mix", PInt 0); ("stereo_width", PInt 55);
      ("vibrato_rate", PFloat 4.0); ("vibrato_depth", PInt 15);
      ("reverb_mix", PInt 45); ("reverb_size", PInt 80); ("attack", PInt 100);
      ("release", PInt 400); ("pitch_variation", PInt 4);
      ("timing_variation", PInt 2); ("breathiness", PInt 5);
      ("warmth", PInt 75); ("brightness", PInt 15);
      ("voice_types", dict_display [("bass", PInt 100)]);
      ("tags", PList [
         PStr "male"; PStr "bass"; PStr "russian"; PStr "orthodox";
         PStr "deep"; PStr "octavist"]) ]
].

Definition female_presets : M (list pyval) := sequence [
  create_preset (PStr "Female 1: Soprano")
    (PStr "Female soprano voice (C4-C6, 260-1050 Hz)")
    (PStr "english") (PStr "formant") (PStr "ah eh ee oh oo")
    [ ("num_voices", PInt 8); ("formant_mix", PInt 100);
      ("subharmonic_mix", PInt 0); ("stereo_width", PInt 75);
      ("vibrato_rate", PFloat 6.8); ("vibrato_depth", PInt 32);
      ("reverb_mix", PInt 28); ("reverb_size", PInt 52); ("attack", PInt 40);
      ("release", PInt 180); ("pitch_variation", PInt 12);
      ("timing_variation", PInt 6); ("formant_variation", PInt 15);
      ("breathiness", PInt 12); ("warmth", PInt 30); ("brightness", PInt 70);
      ("voice_types", dict_display [("soprano", PInt 100)]);
      ("tags", PList [
         PStr "female"; PStr "soprano"; PStr "high"; PStr "bright";
         PStr "opera"]) ];
  create_preset (PStr "Female 2: Mezzo-Soprano")
    (PStr "Female mezzo-soprano (A3-A5, 220-880 Hz)")
    (PStr "english") (PStr "formant") (PStr "ah eh ee oh")
    [ ("num_voices", PInt 6); ("formant_mix", PInt 100);
      ("subharmonic_mix", PInt 0); ("stereo_width", PInt 72);
      ("vibrato_rate", PFloat 6.4); ("vibrato_depth", PInt 28);
      ("reverb_mix", PInt 26); ("reverb_size", PInt 48); ("attack", PInt 45);
      ("release", PInt 190); ("pitch_variation", PInt 10);
      ("timing_variation", PInt 5); ("formant_variation", PInt 12);
      ("breathiness", PInt 10); ("warmth", PInt 38); ("brightness", PInt 58);
      ("voice_types", dict_display [("mezzo_soprano", PInt 100)]);
      ("tags", PList [
         PStr "female"; PStr "mezzo-soprano"; PStr "medium-high";
         PStr "versatile"]) ];
  create_preset (PStr "Female 3: Alto")
    (PStr "Female alto voice (F3-D5, 175-590 Hz)")
    (PStr "english") (PStr "formant") (PStr "ah oh oo eh")
    [ ("num_voices", PInt 6); ("formant_mix", PInt 100);
      ("subharmonic_mix", PInt 0); ("stereo_width", PInt 68);
      ("vibrato_rate", PFloat 6.0); ("vibrato_depth", PInt 24);
      ("reverb_mix", PInt 24); ("reverb_size", PInt 45); ("attack", PInt 50);
      ("release", PInt 200); ("pitch_variation", PInt 10);
      ("timing_variation", PInt 5); ("formant_variation", PInt 12);
      ("breathiness", PInt 10); ("warmth", PInt 45); ("brightness", PInt 50);
      ("voice_types", dict_display [("alto", PInt 100)]);
      ("tags", PList [
         PStr "female"; PStr "alto"; PStr "low"; PStr "warm"; PStr "harmony"]) ];
  create_preset (PStr "Female 4: Coloratura")
    (PStr "Agile female coloratura with fast passages")
    (PStr "english") (PStr "diphone") (PStr "ah-eh ee-oh oh-oo")
    [ ("num_voices", PInt 4); ("formant_mix", PInt 100);
      ("subharmonic_mix", PInt 0); ("stereo_width", PInt 78);
      ("vibrato_rate", PFloat 7.5); ("vibrato_depth", PInt 38);
      ("reverb_mix", PInt 22); ("reverb_size", PInt 40); ("attack", PInt 20);
      ("release", PInt 120); ("pitch_variation", PInt 18);
      ("timing_variation", PInt 8); ("breathiness", PInt 8);
      ("warmth", PInt 25); ("brightness", PInt 80);
      ("voice_types", dict_display [("coloratura", PInt 100)]);
      ("tags", PList [
         PStr "female"; PStr "coloratura"; PStr "agile"; PStr "high";
         PStr "opera"]) ];
  create_preset (PStr "Female 5: SSAA Choir")
    (PStr "Traditional female SSAA choir (Soprano1-Soprano2-Alto1-Alto2)")
    (PStr "english") (PStr "diphone") (PStr "ah-eh ee-oh oh-oo")
    [ ("num_voices", PInt 12); ("formant_mix", PInt 100);
      ("subharmonic_mix", PInt 0); ("stereo_width", PInt 85);
      ("vibrato_rate", PFloat 6.5); ("vibrato_depth", PInt 28);
      ("reverb_mix", PInt 32); ("reverb_size", PInt 58); ("attack", PInt 42);
      ("release", PInt 185); ("pitch_variation", PInt 12);
      ("timing_variation", PInt 6); ("formant_variation", PInt 15);
      ("breathiness", PInt 12); ("warmth", PInt 38); ("brightness", PInt 62);
      ("voice_types", dict_display [
         ("soprano", PInt 50); ("mezzo_soprano", PInt 25); ("alto", PInt 25)]);
      ("tags", PList [
         PStr "female"; PStr "ssaa"; PStr "choir"; PStr "ensemble";
         PStr "traditional"]) ];
  create_preset (PStr "Female 6: Pop Soprano")
    (PStr "Modern pop soprano lead vocals")
    (PStr "english") (PStr "diphone") (PStr "ah eh ee oh")
    [ ("num_voices", PInt 6); ("formant_mix", PInt 92);
      ("subharmonic_mix", PInt 8); ("stereo_width", PInt 80);
      ("vibrato_rate", PFloat 7.2); ("vibrato_depth", PInt 35);
      ("reverb_mix", PInt 15); ("reverb_size", PInt 30); ("attack", PInt 20);
      ("release", PInt 140); ("pitch_variation", PInt 15);
      ("timing_variation", PInt 7); ("breathiness", PInt 15);
      ("warmth", PInt 35); ("brightness", PInt 75);
      ("voice_types", dict_display [("soprano", PInt 100)]);
      ("tags", PList [
         PStr "female"; PStr "pop"; PStr "soprano"; PStr "lead"; PStr "modern"]) ];
  create_preset (PStr "Female 7: Folk Alto")
    (PStr "Warm folk alto with intimate character")
    (PStr "english") (PStr "formant") (PStr "ah oh oo")
    [ ("num_voices", PInt 4); ("formant_mix", PInt 95);
      ("subharmonic_mix", PInt 5); ("stereo_width", PInt 60);
      ("vibrato_rate", PFloat 5.5); ("vibrato_depth", PInt 20);
      ("reverb_mix", PInt 20); ("reverb_size", PInt 35); ("attack", PInt 55);
      ("release", PInt 210); ("pitch_variation", PInt 8);
      ("timing_variation", PInt 4); ("breathiness", PInt 12);
      ("warmth", PInt 55); ("brightness", PInt 45);
      ("voice_types", dict_display [("alto", PInt 100)]);
      ("tags", PList [
         PStr "female"; PStr "alto"; PStr "folk"; PStr "warm"; PStr "intimate"]) ];
  create_preset (PStr "Female 8: Jazz Soprano")
    (PStr "Smoky jazz club soprano with vibrato")
    (PStr "english") (PStr "formant") (PStr "ah eh ee oh")
    [ ("num_voices", PInt 4); ("formant_mix", PInt 98);
      ("subharmonic_mix", PInt 2); ("stereo_width", PInt 70);
      ("vibrato_rate", PFloat 8.0); ("vibrato_depth", PInt 40);
      ("reverb_mix", PInt 25); ("reverb_size", PInt 45); ("attack", PInt 35);
      ("release", PInt 170); ("pitch_variation", PInt 20);
      ("timing_variation", PInt 8); ("breathiness", PInt 18);
      ("warmth", PInt 50); ("brightness", PInt 60);
      ("voice_types", dict_display [("soprano", PInt 100)]);
      ("tags", PList [
         PStr "female"; PStr "soprano"; PStr "jazz"; PStr "smoky"; PStr "club"]) ]
].

Definition child_presets : M (list pyval) := sequence [
  create_preset (PStr "Child 1: Boy Soprano")
    (PStr "Boy soprano before voice change (C4-A5, 260-880 Hz)")
    (PStr "english") (PStr "formant") (PStr "ah eh ee oh")
    [ ("num_voices", PInt 8); ("formant_mix", PInt 100);
      ("subharmonic_mix", PInt 0); ("stereo_width", PInt 70);
      ("vibrato_rate", PFloat 6.0); ("vibrato_depth", PInt 22);
      ("reverb_mix", PInt 30); ("reverb_size", PInt 55); ("attack", PInt 45);
      ("release", PInt 190); ("pitch_variation", PInt 8);
      ("timing_variation", PInt 4); ("formant_variation", PInt 10);
      ("breathiness", PInt 8); ("warmth", PInt 40); ("brightness", PInt 65);
      ("voice_types", dict_display [("boy_soprano", PInt 100)]);
      ("tags", PList [
         PStr "child"; PStr "boy"; PStr "soprano"; PStr "choir"; PStr "bright"]) ];
  create_preset (PStr "Child 2: Girl Soprano")
    (PStr "Girl soprano (C4-C6, 260-1050 Hz)")
    (PStr "english") (PStr "formant") (PStr "ah eh ee oh oo")
    [ ("num_voices", PInt 8); ("formant_mix", PInt 100);
      ("subharmonic_mix", PInt 0); ("stereo_width", PInt 72);
      ("vibrato_rate", PFloat 6.5); ("vibrato_depth", PInt 25);
      ("reverb_mix", PInt 28); ("reverb_size", PInt 50); ("attack", PInt 40);
      ("release", PInt 180); ("pitch_variation", PInt 10);
      ("timing_variation", PInt 5); ("formant_variation", PInt 12);
      ("breathiness", PInt 10); ("warmth", PInt 35); ("brightness", PInt 70);
      ("voice_types", dict_display [("girl_soprano", PInt 100)]);
      ("tags", PList [
         PStr "child"; PStr "girl"; PStr "soprano"; PStr "bright";
         PStr "choir"]) ];
  create_preset (PStr "Child 3: Children's Choir")
    (PStr "Mixed children's choir (boys and girls)")
    (PStr "english") (PStr "diphone") (PStr "ah-eh ee-oh")
    [ ("num_voices", PInt 16); ("formant_mix", PInt 100);
      ("subharmonic_mix", PInt 0); ("stereo_width", PInt 75);
      ("vibrato_rate", PFloat 6.2); ("vibrato_depth", PInt 24);
      ("reverb_mix", PInt 25); ("reverb_size", PInt 45); ("attack", PInt 40);
      ("release", PInt 170); ("pitch_variation", PInt 12);
      ("timing_variation", PInt 6); ("formant_variation", PInt 12);
      ("breathiness", PInt 12); ("warmth", PInt 38); ("brightness", PInt 68);
      ("voice_types", dict_display [
         ("boy_soprano", PInt 50); ("girl_soprano", PInt 50)]);
      ("tags", PList [
         PStr "child"; PStr "children"; PStr "choir"; PStr "ensemble";
         PStr "bright"]) ];
  create_preset (PStr "Child 4: Choirboys")
    (PStr "Traditional English choirboys")
    (PStr "english") (PStr "formant") (PStr "ah eh ee oh oo")
    [ ("num_voices", PInt 12); ("formant_mix", PInt 100);
      ("subharmonic_mix", PInt 0); ("stereo_width", PInt 65);
      ("vibrato_rate", PFloat 5.8); ("vibrato_depth", PInt 20);
      ("reverb_mix", PInt 40); ("reverb_size", PInt 75); ("attack", PInt 70);
      ("release", PInt 280); ("pitch_variation", PInt 6);
      ("timing_variation", PInt 4); ("breathiness", PInt 10);
      ("warmth", PInt 45); ("brightness", PInt 60);
      ("voice_types", dict_display [("boy_soprano", PInt 100)]);
      ("tags", PList [
         PStr "child"; PStr "choirboy"; PStr "traditional"; PStr "church";
         PStr "english"]) ]
].

Definition mixed_presets : M (list pyval) := sequence [
  create_preset (PStr "Mixed 1: SATB Balanced")
    (PStr "Traditional SATB with equal male/female balance")
    (PStr "english") (PStr "diphone") (PStr "oh-ah ah-eh ee-oh oh-oo")
    [ ("num_voices", PInt 16); ("formant_mix", PInt 100);
      ("subharmonic_mix", PInt 0); ("stereo_width", PInt 85);
      ("vibrato_rate", PFloat 6.0); ("vibrato_depth", PInt 26);
      ("reverb_mix", PInt 35); ("reverb_size", PInt 65); ("attack", PInt 50);
      ("release", PInt 210); ("pitch_variation", PInt 12);
      ("timing_variation", PInt 6); ("formant_variation", PInt 14);
      ("breathiness", PInt 10); ("warmth", PInt 45); ("brightness", PInt 55);
      ("voice_types", dict_display [
         ("soprano", PInt 25); ("alto", PInt 25); ("tenor", PInt 25);
         ("bass", PInt 25)]);
      ("gender_balance", dict_display [
         ("male", PInt 50); ("female", PInt 50)]);
      ("tags", PList [
         PStr "mixed"; PStr "satb"; PStr "balanced"; PStr "choir";
         PStr "traditional"]) ];
  create_preset (PStr "Mixed 2: Female Heavy")
    (PStr "Female-dominated ensemble (60% female, 40% male)")
    (PStr "english") (PStr "diphone") (PStr "ah-eh ee-oh oh-oo")
    [ ("num_voices", PInt 20); ("formant_mix", PInt 100);
      ("subharmonic_mix", PInt 0); ("stereo_width", PInt 88);
      ("vibrato_rate", PFloat 6.3); ("vibrato_depth", PInt 28);
      ("reverb_mix", PInt 32); ("reverb_size", PInt 60); ("attack", PInt 42);
      ("release", PInt 190); ("pitch_variation", PInt 14);
      ("timing_variation", PInt 7); ("formant_variation", PInt 16);
      ("breathiness", PInt 12); ("warmth", PInt 40); ("brightness", PInt 65);
      ("voice_types", dict_display [
         ("soprano", PInt 35); ("alto", PInt 25); ("mezzo_soprano", PInt 10);
         ("tenor", PInt 20); ("bass", PInt 10)]);
      ("gender_balance", dict_display [
         ("male", PInt 40); ("female", PInt 60)]);
      ("tags", PList [
         PStr "mixed"; PStr "female-heavy"; PStr "bright"; PStr "choir";
         PStr "ensemble"]) ];
  create_preset (PStr "Mixed 3: Male Heavy")
    (PStr "Male-dominated ensemble (60% male, 40% female)")
    (PStr "english") (PStr "diphone") (PStr "oh-ah ah-eh ee-oh")
    [ ("num_voices", PInt 20); ("formant_mix", PInt 100);
      ("subharmonic_mix", PInt 0); ("stereo_width", PInt 80);
      ("vibrato_rate", PFloat 5.8); ("vibrato_depth", PInt 24);
      ("reverb_mix", PInt 30); ("reverb_size", PInt 55); ("attack", PInt 55);
      ("release", PInt 220); ("pitch_variation", PInt 12);
      ("timing_variation", PInt 6); ("formant_variation", PInt 12);
      ("breathiness", PInt 8); ("warmth", PInt 55); ("brightness", PInt 40);
      ("voice_types", dict_display [
         ("soprano", PInt 15); ("alto", PInt 25); ("tenor", PInt 30);
         ("baritone", PInt 15); ("bass", PInt 15)]);
      ("gender_balance", dict_display [
         ("male", PInt 60); ("female", PInt 40)]);
      ("tags", PList [
         PStr "mixed"; PStr "male-heavy"; PStr "warm"; PStr "powerful";
         PStr "choir"]) ];
  create_preset (PStr "Mixed 4: Double Choir")
    (PStr "Massive double choir (32 voices, SATB + SATB)")
    (PStr "english") (PStr "diphone") (PStr "ah-eh ee-oh oh-oo")
    [ ("num_voices", PInt 32); ("formant_mix", PInt 100);
      ("subharmonic_mix", PInt 0); ("stereo_width", PInt 100);
      ("vibrato_rate", PFloat 6.2); ("vibrato_depth", PInt 26);
      ("reverb_mix", PInt 45); ("reverb_size", PInt 75); ("attack", PInt 50);
      ("release", PInt 220); ("pitch_variation", PInt 14);
      ("timing_variation", PInt 7); ("formant_variation", PInt 15);
      ("breathiness", PInt 10); ("warmth", PInt 48); ("brightness", PInt 52);
      ("voice_types", dict_display [
         ("soprano", PInt 25); ("alto", PInt 25); ("tenor", PInt 25);
         ("bass", PInt 25)]);
      ("gender_balance", dict_display [
         ("male", PInt 50); ("female", PInt 50)]);
      ("tags", PList [
         PStr "mixed"; PStr "double-choir"; PStr "massive"; PStr "satb";
         PStr "powerful"]) ];
  create_preset (PStr "Mixed 5: Chamber Choir")
    (PStr "Intimate chamber choir with refined blend")
    (PStr "english") (PStr "diphone") (PStr "ah-eh ee-oh oh-oo")
    [ ("num_voices", PInt 12); ("formant_mix", PInt 100);
      ("subharmonic_mix", PInt 0); ("stereo_width", PInt 75);
      ("vibrato_rate", PFloat 6.0); ("vibrato_depth", PInt 24);
      ("reverb_mix", PInt 28); ("reverb_size", PInt 50); ("attack", PInt 45);
      ("release", PInt 200); ("pitch_variation", PInt 10);
      ("timing_variation", PInt 5); ("formant_variation", PInt 12);
      ("breathiness", PInt 8); ("warmth", PInt 45); ("brightness", PInt 55);
      ("voice_types", dict_display [
         ("soprano", PInt 30); ("alto", PInt 25); ("tenor", PInt 25);
         ("bass", PInt 20)]);
      ("gender_balance", dict_display [
         ("male", PInt 48); ("female", PInt 52)]);
      ("tags", PList [
         PStr "mixed"; PStr "chamber"; PStr "intimate"; PStr "refined";
         PStr "choir"]) ];
  create_preset (PStr "Mixed 6: Cathedral Choir")
    (PStr "Large cathedral choir with reverberant space")
    (PStr "latin") (PStr "formant") (PStr "ah-eh-ee-oh-oo")
    [ ("num_voices", PInt 24); ("formant_mix", PInt 100);
      ("subharmonic_mix", PInt 0); ("stereo_width", PInt 90);
      ("vibrato_rate", PFloat 5.5); ("vibrato_depth", PInt 22);
      ("reverb_mix", PInt 60); ("reverb_size", PInt 100); ("attack", PInt 80);
      ("release", PInt 350); ("pitch_variation", PInt 12);
      ("timing_variation", PInt 6); ("formant_variation", PInt 10);
      ("breathiness", PInt 12); ("warmth", PInt 55); ("brightness", PInt 45);
      ("voice_types", dict_display [
         ("soprano", PInt 25); ("alto", PInt 25); ("tenor", PInt 25);
         ("bass", PInt 25)]);
      ("gender_balance", dict_display [
         ("male", PInt 50); ("female", PInt 50)]);
      ("tags", PList [
         PStr "mixed"; PStr "cathedral"; PStr "large"; PStr "reverb";
         PStr "latin"]) ];
  create_preset (PStr "Mixed 7: Gospel Choir")
    (PStr "Energetic gospel choir with female lead")
    (PStr "english") (PStr "diphone") (PStr "ah-eh ee-oh oh-ay")
    [ ("num_voices", PInt 24); ("formant_mix", PInt 95);
      ("subharmonic_mix", PInt 5); ("stereo_width", PInt 90);
      ("vibrato_rate", PFloat 7.0); ("vibrato_depth", PInt 35);
      ("reverb_mix", PInt 30); ("reverb_size", PInt 55); ("attack", PInt 35);
      ("release", PInt 180); ("pitch_variation", PInt 18);
      ("timing_variation", PInt 8); ("breathiness", PInt 15);
      ("warmth", PInt 45); ("brightness", PInt 70);
      ("voice_types", dict_display [
         ("soprano", PInt 40); ("alto", PInt 30); ("tenor", PInt 20);
         ("bass", PInt 10)]);
      ("gender_balance", dict_display [
         ("male", PInt 35); ("female", PInt 65)]);
      ("tags", PList [
         PStr "mixed"; PStr "gospel"; PStr "energetic"; PStr "soul";
         PStr "female-heavy"]) ];
  create_preset (PStr "Mixed 8: Barbershop Mixed")
    (PStr "Mixed gender barbershop harmony")
    (PStr "english") (PStr "diphone") (PStr "ah-eh ee-oh")
    [ ("num_voices", PInt 4); ("formant_mix", PInt 98);
      ("subharmonic_mix", PInt 2); ("stereo_width", PInt 70);
      ("vibrato_rate", PFloat 6.5); ("vibrato_depth", PInt 30);
      ("reverb_mix", PInt 10); ("reverb_size", PInt 25); ("attack", PInt 25);
      ("release", PInt 150); ("pitch_variation", PInt 6);
      ("timing_variation", PInt 3); ("breathiness", PInt 8);
      ("warmth", PInt 50); ("brightness", PInt 60);
      ("voice_types", dict_display [
         ("tenor", PInt 25); ("lead", PInt 25); ("baritone", PInt 25);
         ("bass", PInt 25)]);
      ("gender_balance", dict_display [
         ("male", PInt 75); ("female", PInt 25)]);
      ("tags", PList [
         PStr "mixed"; PStr "barbershop"; PStr "harmony"; PStr "close-harmony"]) ];
  create_preset (PStr "Mixed 9: Contemporary Worship")
    (PStr "Modern worship team with balanced voices")
    (PStr "english") (PStr "diphone") (PStr "ah-eh ee-oh oh-oo")
    [ ("num_voices", PInt 12); ("formant_mix", PInt 92);
      ("subharmonic_mix", PInt 8); ("stereo_width", PInt 82);
      ("vibrato_rate", PFloat 6.2); ("vibrato_depth", PInt 28);
      ("reverb_mix", PInt 25); ("reverb_size", PInt 45); ("attack", PInt 30);
      ("release", PInt 170); ("pitch_variation", PInt 12);
      ("timing_variation", PInt 6); ("breathiness", PInt 10);
      ("warmth", PInt 42); ("brightness", PInt 62);
      ("voice_types", dict_display [
         ("soprano", PInt 30); ("alto", PInt 25); ("tenor", PInt 25);
         ("bass", PInt 20)]);
      ("gender_balance", dict_display [
         ("male", PInt 50); ("female", PInt 50)]);
      ("tags", PList [
         PStr "mixed"; PStr "worship"; PStr "contemporary"; PStr "modern";
         PStr "balanced"]) ];
  create_preset (PStr "Mixed 10: Renaissance Polyphony")
    (PStr "Authentic Renaissance polyphony (male-heavy)")
    (PStr "latin") (PStr "diphone") (PStr "ah-eh ee-oh oh-oo")
    [ ("num_voices", PInt 16); ("formant_mix", PInt 100);
      ("subharmonic_mix", PInt 0); ("stereo_width", PInt 70);
      ("vibrato_rate", PFloat 5.5); ("vibrato_depth", PInt 18);
      ("reverb_mix", PInt 35); ("reverb_size", PInt 60); ("attack", PInt 55);
      ("release", PInt 230); ("pitch_variation", PInt 8);
      ("timing_variation", PInt 4); ("formant_variation", PInt 10);
      ("breathiness", PInt 8); ("warmth", PInt 52); ("brightness", PInt 42);
      ("voice_types", dict_display [
         ("soprano", PInt 20); ("alto", PInt 30); ("tenor", PInt 30);
         ("bass", PInt 20)]);
      ("gender_balance", dict_display [
         ("male", PInt 80); ("female", PInt 20)]);
      ("tags", PList [
         PStr "mixed"; PStr "renaissance"; PStr "polyphony"; PStr "authentic";
         PStr "latin"]) ]
].

Definition nonbinary_presets : M (list pyval) := sequence [
  create_preset (PStr "Non-Binary 1: Neutral Voice")
    (PStr "Gender-neutral voice with balanced characteristics")
    (PStr "english") (PStr "formant") (PStr "ah eh ee oh oo")
    [ ("num_voices", PInt 8); ("formant_mix", PInt 100);
      ("subharmonic_mix", PInt 0); ("stereo_width", PInt 75);
      ("vibrato_rate", PFloat 6.0); ("vibrato_depth", PInt 25);
      ("reverb_mix", PInt 25); ("reverb_size", PInt 50); ("attack", PInt 50);
      ("release", PInt 200); ("pitch_variation", PInt 10);
      ("timing_variation", PInt 5); ("formant_variation", PInt 10);
      ("breathiness", PInt 10); ("warmth", PInt 50); ("brightness", PInt 50);
      ("voice_types", dict_display [("neutral", PInt 100)]);
      ("gender_balance", dict_display [
         ("male", PInt 50); ("female", PInt 50)]);
      ("tags", PList [
         PStr "non-binary"; PStr "neutral"; PStr "balanced"; PStr "versatile"]) ];
  create_preset (PStr "Non-Binary 2: Androgynous High")
    (PStr "Androgynous high voice (flexible gender)")
    (PStr "english") (PStr "formant") (PStr "ah eh ee oh")
    [ ("num_voices", PInt 6); ("formant_mix", PInt 100);
      ("subharmonic_mix", PInt 0); ("stereo_width", PInt 78);
      ("vibrato_rate", PFloat 6.5); ("vibrato_depth", PInt 28);
      ("reverb_mix", PInt 22); ("reverb_size", PInt 45); ("attack", PInt 40);
      ("release", PInt 180); ("pitch_variation", PInt 14);
      ("timing_variation", PInt 7); ("formant_variation", PInt 14);
      ("breathiness", PInt 10); ("warmth", PInt 45); ("brightness", PInt 55);
      ("voice_types", dict_display [("androgynous", PInt 100)]);
      ("gender_balance", dict_display [
         ("male", PInt 50); ("female", PInt 50)]);
      ("tags", PList [
         PStr "non-binary"; PStr "androgynous"; PStr "high"; PStr "flexible"]) ];
  create_preset (PStr "Non-Binary 3: Gender Fluid")
    (PStr "Voice that can shift between male/female characteristics")
    (PStr "english") (PStr "diphone") (PStr "ah-eh ee-oh oh-oo")
    [ ("num_voices", PInt 8); ("formant_mix", PInt 100);
      ("subharmonic_mix", PInt 0); ("stereo_width", PInt 80);
      ("vibrato_rate", PFloat 6.2); ("vibrato_depth", PInt 26);
      ("reverb_mix", PInt 25); ("reverb_size", PInt 48); ("attack", PInt 45);
      ("release", PInt 190); ("pitch_variation", PInt 20);
      ("timing_variation", PInt 10); ("formant_variation", PInt 20);
      ("breathiness", PInt 12); ("warmth", PInt 48); ("brightness", PInt 52);
      ("voice_types", dict_display [("gender_fluid", PInt 100)]);
      ("gender_balance", dict_display [
         ("male", PInt 50); ("female", PInt 50)]);
      ("tags", PList [
         PStr "non-binary"; PStr "gender-fluid"; PStr "versatile";
         PStr "shifting"]) ];
  create_preset (PStr "Non-Binary 4: Third Gender")
    (PStr "Traditional third gender voice (Hijra/Two-Spirit)")
    (PStr "english") (PStr "formant") (PStr "ah eh ee oh")
    [ ("num_voices", PInt 6); ("formant_mix", PInt 100);
      ("subharmonic_mix", PInt 0); ("stereo_width", PInt 72);
      ("vibrato_rate", PFloat 6.0); ("vibrato_depth", PInt 24);
      ("reverb_mix", PInt 30); ("reverb_size", PInt 55); ("attack", PInt 60);
      ("release", PInt 220); ("pitch_variation", PInt 12);
      ("timing_variation", PInt 6); ("formant_variation", PInt 12);
      ("breathiness", PInt 15); ("warmth", PInt 55); ("brightness", PInt 45);
      ("voice_types", dict_display [("third_gender", PInt 100)]);
      ("gender_balance", dict_display [
         ("male", PInt 50); ("female", PInt 50)]);
      ("tags", PList [
         PStr "non-binary"; PStr "third-gender"; PStr "traditional";
         PStr "cultural"]) ]
].

Definition preset_dir : string :=
  "/Users/bretbouchard/apps/schill/choir-v2-universal/presets/factory".

(** [def main()]; the five lists are the module's globals. *)
Definition main (male_presets female_presets child_presets mixed_presets
    nonbinary_presets : list pyval) : M unit :=
  print "Generating Choir V2.0 Gender & Voice Type Presets..." ;;
  print (repeat_char "="%char 70) ;;
  let all_presets :=
    (male_presets ++ female_presets ++ child_presets ++ mixed_presets
       ++ nonbinary_presets)%list in
  for_each all_presets (fun preset => save_preset preset preset_dir) ;;
  print (repeat_char "="%char 70) ;;
  let count (l : list pyval) : string :=
    string_of_list_ascii (int_repr (Z.of_nat (length l))) in
  print (newline +:+ check_mark +:+ " Generated " +:+ count all_presets
           +:+ " gender & voice type presets!") ;;
  print ("  - Male Voices: " +:+ count male_presets) ;;
  print ("  - Female Voices: " +:+ count female_presets) ;;
  print ("  - Child Voices: " +:+ count child_presets) ;;
  print ("  - Mixed Ensembles: " +:+ count mixed_presets) ;;
  print ("  - Non-Binary: " +:+ count nonbinary_presets) ;;
  print (newline +:+ "Gender Balance Controls:") ;;
  print "  - All ensemble presets include voice_type distribution" ;;
  print "  - gender_balance parameter (male/female percentages)" ;;
  print "  - Proper vocal ranges for each voice type" ;;
  print "  - Female bass vs Male bass formant differences" ;;
  print (newline +:+ "Location: " +:+ preset_dir).

(** Loading the module builds the five lists, in this order. *)
Definition load : M (list pyval * list pyval * list pyval * list pyval * list pyval) :=
  let* males := male_presets in
  let* females := female_presets in
  let* children := child_presets in
  let* mixed := mixed_presets in
  let* nonbinary := nonbinary_presets in
  ret (males, females, children, mixed, nonbinary).

(** The script run as a program: the five lists, then [main()]. *)
Definition script : M unit :=
  bind load (fun '(males, females, children, mixed, nonbinary) =>
               main males females children mixed nonbinary).

End Gender.

(** ** Values that JSON carries unchanged *)

(** A float that is not NaN and that the decoder reads back from the text
    the encoder writes for it. *)
Definition float_native (f : float) : Prop :=
  PrimFloat.eqb f f = true /\ scan_atom (floatstr f) = Some (PFloat f, []).

Fixpoint nodup_keys (ks : list string) : bool :=
  match ks with
  | [] => true
  | k :: ks' => negb (mem_string k ks') && nodup_keys ks'
  end.

(** [None], booleans, integers, strings, native floats, and lists and
    dictionaries of such values, the keys of a dictionary being distinct;
    no tuple. *)
Fixpoint json_native (v : pyval) : Prop :=
  match v with
  | PNone | PBool _ | PInt _ | PStr _ => True
  | PFloat f => float_native f
  | PList l => fold_right (fun x rest => json_native x /\ rest) True l
  | PTuple _ => False
  | PDict d =>
      nodup_keys (keys d) = true /\
      fold_right (fun kv rest => json_native (snd kv) /\ rest) True d
  end.

(** The calls of the scanner a value takes. *)
Fixpoint size (v : pyval) : nat :=
  match v with
  | PList l | PTuple l => S (list_sum (map (fun x => S (size x)) l))
  | PDict d => S (list_sum (map (fun kv => S (size (snd kv))) d))
  | _ => 1
  end.

(** The text stops a number: it is empty or starts with a character that
    no number contains. *)
Definition number_char (c : ascii) : bool :=
  is_digit c || Ascii.eqb c "." || Ascii.eqb c "e" || Ascii.eqb c "E"
  || Ascii.eqb c "+" || Ascii.eqb c "-".

Definition number_stop (rest : list ascii) : Prop :=
  match rest with
  | [] => True
  | c :: _ => number_char c = false
  end.

(** A character an atom can start with. *)
Definition atom_start (c : ascii) : bool :=
  is_digit c || Ascii.eqb c "-" || Ascii.eqb c "N" || Ascii.eqb c "I".

(** The calls the items of a list, or of a dictionary, take. *)
Definition items_size (l : list pyval) : nat := list_sum (map (fun x => S (size x)) l).

Definition pairs_size (d : list (string * pyval)) : nat :=
  list_sum (map (fun kv => S (size (snd kv))) d).

(** What follows the first item of a block: the other items, each after a
    comma and a line break, then the closing bracket on its own line. *)
Definition items_tail (closing : ascii) (level : nat) (xs : list (list ascii))
    (rest : list ascii) : list ascii :=
  (flat_map (fun y => ","%char :: newline_indent (S level) ++ y) xs
     ++ newline_indent level ++ closing :: rest)%list.

(** The scanner reads [v] back from its encoding at any depth, whatever
    follows it, given fuel for its size. *)
Definition scans_back (v : pyval) : Prop :=
  forall level fuel rest,
    (size v <= fuel)%nat -> number_stop rest ->
    scan_once fuel (encode level v ++ rest) = Some (v, rest).

(** ** Reading a record *)

(** [v[k]] as a partial function. *)
Definition item (v : pyval) (k : string) : option pyval :=
  match v with
  | PDict d => assoc k d
  | _ => None
  end.

(** [v[k1][k2]] *)
Definition item2 (v : pyval) (k1 k2 : string) : option pyval :=
  match item v k1 with
  | Some x => item x k2
  | None => None
  end.

(** [list(v.keys())] *)
Definition dict_keys (v : pyval) : option (list string) :=
  match v with
  | PDict d => Some (keys d)
  | _ => None
  end.




(** The keyword arguments of a call, less those named in [ks]. *)
Definition without (ks : list string) (kw : kwargs) : kwargs :=
  List.filter (fun kv => negb (mem_string (fst kv) ks)) kw.

(** The world after [n] more clock readings. *)
Definition after_reads (n : nat) (w : world) : world :=
  {| wall_clock := wall_clock w; clock_reads := (n + clock_reads w)%nat;
     fs_dirs := fs_dirs w; fs_files := fs_files w; stdout := stdout w |}.

(** What a run returns, when it does not raise. *)
Definition value_of {A} (r : result A) : option A :=
  match r with
  | Ok a _ => Some a
  | Raise _ => None
  end.

(** [k] was passed with a value that is not [None]. *)
Definition supplied (kw : kwargs) (k : string) : Prop :=
  exists v, assoc k kw = Some v /\ v <> PNone.

(** The keyword arguments name only parameters of the function. *)
Definition accepted (params : list string) (kw : kwargs) : Prop :=
  forallb (fun kv => mem_string (fst kv) params) kw = true.

(** *** Distribution maps *)

(** The sum of the weights of a distribution map, when they are integers. *)
Fixpoint weight_sum (d : list (string * pyval)) : option Z :=
  match d with
  | [] => Some 0
  | (_, PInt z) :: d' => option_map (Z.add z) (weight_sum d')
  | _ => None
  end.

(** The record has no ["voice_types"], or one whose weights sum to 100. *)
Definition voice_types_ok (r : pyval) : bool :=
  match item2 r "parameters" "voice_types" with
  | None => true
  | Some (PDict d) =>
      match weight_sum d with Some total => total =? 100 | None => false end
  | Some _ => false
  end.

(** The record has no ["gender_balance"], or one whose ["male"] and
    ["female"] weights sum to 100. *)
Definition gender_balance_ok (r : pyval) : bool :=
  match item2 r "parameters" "gender_balance" with
  | None => true
  | Some gb =>
      match item gb "male", item gb "female" with
      | Some (PInt m), Some (PInt f) => m + f =? 100
      | _, _ => false
      end
  end.

Definition has_parameter (k : string) (r : pyval) : bool :=
  match item2 r "parameters" k with Some _ => true | None => false end.

Definition flags_ok (r : pyval) : bool :=
  match item r "is_factory", item r "is_read_only" with
  | Some (PBool true), Some (PBool true) => true
  | _, _ => false
  end.

(** *** The builders in closed form *)

(** The dictionary both builders display, given the category and the two
    timestamps. *)
Definition displayed (category : string)
    (name description language synthesis_method lyrics : pyval)
    (kw : kwargs) (created modified : string) : pyval :=
  PDict [
    ("metadata", PDict [
       ("name", name);
       ("author", PStr "Bret Bouchard");
       ("description", description);
       ("version", PStr "2.0.0");
       ("category", PStr category);
       ("tags", py_or (kwarg kw "tags" PNone) (PList []));
       ("created_date", PStr created);
       ("modified_date", PStr modified);
       ("plugin_version", PStr "2.0.0") ]);
    ("parameters", PDict ([
       ("num_voices", kwarg kw "num_voices" (PInt 8));
       ("master_gain", PFloat (-3.0));
       ("language", language);
       ("lyrics", lyrics);
       ("synthesis_method", synthesis_method);
       ("formant_mix", kwarg kw "formant_mix" (PInt 80));
       ("subharmonic_mix", kwarg kw "subharmonic_mix" (PInt 20));
       ("stereo_width", kwarg kw "stereo_width" (PInt 75));
       ("vibrato_rate", kwarg kw "vibrato_rate" (PFloat 6.0));
       ("vibrato_depth", kwarg kw "vibrato_depth" (PFloat 30.0));
       ("reverb_mix", kwarg kw "reverb_mix" (PInt 25));
       ("reverb_size", kwarg kw "reverb_size" (PInt 50));
       ("attack_time", kwarg kw "attack" (PInt 50));
       ("release_time", kwarg kw "release" (PInt 200));
       ("enable_anti_aliasing", PBool true);
       ("enable_spectral_enhancement", PBool true);
       ("oversampling_factor", PFloat 1.0);
       ("pitch_variation", kwarg kw "pitch_variation" (PInt 10));
       ("timing_variation", kwarg kw "timing_variation" (PInt 5));
       ("formant_variation", kwarg kw "formant_variation" (PInt 15));
       ("breathiness", kwarg kw "breathiness" (PInt 10));
       ("warmth", kwarg kw "warmth" (PInt 20));
       ("brightness", kwarg kw "brightness" (PInt 50)) ]
       ++ (if String.eqb category "Gender" then
             (if truthy (kwarg kw "gender_balance" PNone)
              then [("gender_balance", kwarg kw "gender_balance" PNone)] else [])
             ++ (if truthy (kwarg kw "voice_types" PNone)
                 then [("voice_types", kwarg kw "voice_types" PNone)] else [])
           else []))%list);
    ("is_factory", PBool true);
    ("is_read_only", PBool true) ].

(** [m] returns, in every world, a value that satisfies [P]. *)
Definition returns {A} (m : M A) (P : A -> Prop) : Prop :=
  forall w, exists a w', m w = Ok a w' /\ P a.

(** The properties the example asks of a record. *)
Definition male_bass_example (r : pyval) : Prop :=
  exists num_voices warmth brightness,
    item2 r "parameters" "num_voices" = Some num_voices /\
    py_eq num_voices (PInt 4) = true /\
    item2 r "parameters" "warmth" = Some warmth /\
    py_eq warmth (PFloat 70.0) = true /\
    item2 r "parameters" "brightness" = Some brightness /\
    py_eq brightness (PFloat 20.0) = true /\
    forall w, Gender.derive_filename r w = Ok "Male_1:_Bass.choirv2" w.

(** A world to run examples in: the clock advances by one microsecond at
    every reading, the factory directory exists and is empty, nothing has
    been printed. *)
Definition ticking_world : world :=
  {| wall_clock := fun n =>
       {| year := 2026; month := 1; day := 2; hour := 3; minute := 4;
          second := 5; microsecond := Z.of_nat n |};
     clock_reads := 0;
     fs_dirs := {[ Gender.preset_dir ]};
     fs_files := ∅;
     stdout := [] |}.

(** * Properties *)

(** ** The builder *)

(** Unfolds a call of either builder whose keywords are known to be
    accepted, down to the dictionary it returns. *)
Ltac run_builder H :=
  unfold Gender.create_preset, Additional.create_preset, check_kwargs;
  unfold accepted in H; rewrite H;
  cbn -[isoformat kwarg truthy py_or].

Ltac split_optional kw :=
  destruct (truthy (kwarg kw "gender_balance" PNone));
  destruct (truthy (kwarg kw "voice_types" PNone));
  cbn -[isoformat kwarg truthy py_or].

Lemma gender_create_preset_displayed
    (name description language synthesis_method lyrics : pyval)
    (kw : kwargs) (w : world) :
  accepted Gender.optional_params kw ->
  Gender.create_preset name description language synthesis_method lyrics kw w
  = Ok (displayed "Gender" name description language synthesis_method lyrics kw
          (isoformat (wall_clock w (clock_reads w)))
          (isoformat (wall_clock w (S (clock_reads w)))))
       (after_reads 2 w).
Proof.
  intros H. run_builder H. unfold displayed. split_optional kw; reflexivity.
Qed.

Lemma additional_create_preset_displayed
    (name description language synthesis_method lyrics : pyval)
    (kw : kwargs) (w : world) :
  accepted Additional.optional_params kw ->
  Additional.create_preset name description language synthesis_method lyrics kw w
  = Ok (displayed "Factory" name description language synthesis_method lyrics kw
          (isoformat (wall_clock w (clock_reads w)))
          (isoformat (wall_clock w (S (clock_reads w)))))
       (after_reads 2 w).
Proof.
  intros H. run_builder H. reflexivity.
Qed.

Lemma rejected_kwargs_raise (params : list string) (kw : kwargs) (w : world) :
  ~ accepted params kw -> check_kwargs params kw w = Raise TypeError.
Proof.
  unfold accepted, check_kwargs. destruct (forallb _ kw); [congruence | reflexivity].
Qed.

Lemma returns_sequence {A} (P : A -> Prop) (ms : list (M A)) :
  Forall (fun m => returns m P) ms ->
  returns (sequence ms) (fun l => length l = length ms /\ Forall P l).
Proof.
  induction 1 as [| m ms Hm _ IH]; intros w.
  - exists [], w. repeat split. constructor.
  - destruct (Hm w) as (a & w1 & E1 & Pa).
    destruct (IH w1) as (l & w2 & E2 & Hlen & Pl).
    exists (a :: l), w2. cbn. unfold bind. rewrite E1, E2.
    repeat split; [cbn; congruence | constructor; assumption].
Qed.

Lemma returns_gender_create_preset (P : pyval -> Prop)
    (name description language synthesis_method lyrics : pyval) (kw : kwargs) :
  accepted Gender.optional_params kw ->
  (forall created modified,
     P (displayed "Gender" name description language synthesis_method lyrics kw
          created modified)) ->
  returns (Gender.create_preset name description language synthesis_method lyrics kw) P.
Proof.
  intros H HP w. eexists; eexists. split.
  - apply gender_create_preset_displayed, H.
  - apply HP.
Qed.

Lemma returns_additional_create_preset (P : pyval -> Prop)
    (name description language synthesis_method lyrics : pyval) (kw : kwargs) :
  accepted Additional.optional_params kw ->
  (forall created modified,
     P (displayed "Factory" name description language synthesis_method lyrics kw
          created modified)) ->
  returns (Additional.create_preset name description language synthesis_method lyrics kw) P.
Proof.
  intros H HP w. eexists; eexists. split.
  - apply additional_create_preset_displayed, H.
  - apply HP.
Qed.

(** Every call in a catalog returns a record that passes the boolean test
    [ok], whatever the clock says. *)
Ltac check_catalog :=
  apply returns_sequence;
  repeat (apply List.Forall_cons || apply List.Forall_nil);
  ((apply returns_gender_create_preset || apply returns_additional_create_preset);
   [ reflexivity | intros created modified; vm_compute; reflexivity ]).

(** C1, as the code has it: the ["parameters"] dictionary of a built record
    has exactly the 23 schema keys, followed in the gender script by
    ["gender_balance"] and then ["voice_types"], each present exactly when
    the argument bound to it is truthy (neither [None] nor empty);
    [metadata.name] is the [name] argument itself. *)
Theorem create_preset_parameter_keys
    (name description language synthesis_method lyrics : pyval)
    (kwg kwa : kwargs) (w : world) :
  accepted Gender.optional_params kwg ->
  accepted Additional.optional_params kwa ->
  (exists r p,
     Gender.create_preset name description language synthesis_method lyrics kwg w
       = Ok r (after_reads 2 w) /\
     item r "parameters" = Some p /\
     dict_keys p = Some
       (parameter_schema
          ++ (if truthy (kwarg kwg "gender_balance" PNone)
              then ["gender_balance"] else [])
          ++ (if truthy (kwarg kwg "voice_types" PNone)
              then ["voice_types"] else []))%list /\
     item2 r "metadata" "name" = Some name) /\
  (exists r p,
     Additional.create_preset name description language synthesis_method lyrics kwa w
       = Ok r (after_reads 2 w) /\
     item r "parameters" = Some p /\
     dict_keys p = Some parameter_schema /\
     item2 r "metadata" "name" = Some name).
Proof.
  intros Hg Ha. split.
  - run_builder Hg. split_optional kwg;
      eexists; eexists; (split; [reflexivity|]); (split; [reflexivity|]);
      split; reflexivity.
  - run_builder Ha.
    eexists; eexists; (split; [reflexivity|]); (split; [reflexivity|]);
      split; reflexivity.
Qed.

Lemma create_preset_parameter_keys_witness :
  (exists r p,
     Gender.create_preset (PStr "Male 1: Bass") (PStr "Deep male bass voice")
       (PStr "english") (PStr "formant") (PStr "oh oo ah")
       [("voice_types", dict_display [("bass", PInt 100)])] ticking_world
       = Ok r (after_reads 2 ticking_world) /\
     item r "parameters" = Some p /\
     dict_keys p = Some (parameter_schema ++ [] ++ ["voice_types"])%list /\
     item2 r "metadata" "name" = Some (PStr "Male 1: Bass")) /\
  (exists r p,
     Additional.create_preset (PStr "Male 1: Bass") (PStr "Deep male bass voice")
       (PStr "english") (PStr "formant") (PStr "oh oo ah")
       [("num_voices", PInt 4)] ticking_world
       = Ok r (after_reads 2 ticking_world) /\
     item r "parameters" = Some p /\
     dict_keys p = Some parameter_schema /\
     item2 r "metadata" "name" = Some (PStr "Male 1: Bass")).
Proof.
  apply (create_preset_parameter_keys
           (PStr "Male 1: Bass") (PStr "Deep male bass voice")
           (PStr "english") (PStr "formant") (PStr "oh oo ah")
           [("voice_types", dict_display [("bass", PInt 100)])]
           [("num_voices", PInt 4)] ticking_world); reflexivity.
Defined.

(** C1 fails as stated: an empty [voice_types] map is supplied and is not
    [None], yet the record has no ["voice_types"] key (the same holds for
    [gender_balance]). *)
Lemma empty_voice_types_is_left_out :
  supplied [("voice_types", PDict []); ("gender_balance", PDict [])] "voice_types" /\
  supplied [("voice_types", PDict []); ("gender_balance", PDict [])] "gender_balance" /\
  exists r p,
    value_of
      (Gender.create_preset (PStr "Empty") (PStr "no distribution")
         (PStr "english") (PStr "formant") (PStr "ah")
         [("voice_types", PDict []); ("gender_balance", PDict [])] ticking_world)
      = Some r /\
    item r "parameters" = Some p /\
    dict_keys p = Some parameter_schema.
Proof.
  split; [| split].
  - exists (PDict []). split; [reflexivity | discriminate].
  - exists (PDict []). split; [reflexivity | discriminate].
  - eexists; eexists. split; [reflexivity |]. split; reflexivity.
Qed.

(** C2, as the code has it: the builder reads the wall clock twice;
    [created_date] is the ISO text of the first reading and
    [modified_date] the ISO text of the second, so the two fields agree
    whenever the two readings do. *)
Theorem create_preset_timestamps
    (name description language synthesis_method lyrics : pyval)
    (kwg kwa : kwargs) (w : world) :
  accepted Gender.optional_params kwg ->
  accepted Additional.optional_params kwa ->
  let first := wall_clock w (clock_reads w) in
  let second := wall_clock w (S (clock_reads w)) in
  (exists r,
     Gender.create_preset name description language synthesis_method lyrics kwg w
       = Ok r (after_reads 2 w) /\
     item2 r "metadata" "created_date" = Some (PStr (isoformat first)) /\
     item2 r "metadata" "modified_date" = Some (PStr (isoformat second)) /\
     (first = second ->
      item2 r "metadata" "created_date" = item2 r "metadata" "modified_date")) /\
  (exists r,
     Additional.create_preset name description language synthesis_method lyrics kwa w
       = Ok r (after_reads 2 w) /\
     item2 r "metadata" "created_date" = Some (PStr (isoformat first)) /\
     item2 r "metadata" "modified_date" = Some (PStr (isoformat second)) /\
     (first = second ->
      item2 r "metadata" "created_date" = item2 r "metadata" "modified_date")).
Proof.
  intros Hg Ha first second. split.
  - run_builder Hg. split_optional kwg;
      eexists; (split; [reflexivity|]); (split; [reflexivity|]);
      (split; [reflexivity|]); intros E; unfold item2; cbn -[isoformat];
      subst first second; rewrite E; reflexivity.
  - run_builder Ha.
    eexists; (split; [reflexivity|]); (split; [reflexivity|]);
      (split; [reflexivity|]); intros E; unfold item2; cbn -[isoformat];
      subst first second; rewrite E; reflexivity.
Qed.

Lemma create_preset_timestamps_witness :
  exists r,
    Gender.create_preset (PStr "Male 1: Bass") (PStr "Deep male bass voice")
      (PStr "english") (PStr "formant") (PStr "oh oo ah")
      [("num_voices", PInt 4)] ticking_world
      = Ok r (after_reads 2 ticking_world) /\
    item2 r "metadata" "created_date" = Some (PStr "2026-01-02T03:04:05") /\
    item2 r "metadata" "modified_date" = Some (PStr "2026-01-02T03:04:05.000001").
Proof.
  destruct (create_preset_timestamps
              (PStr "Male 1: Bass") (PStr "Deep male bass voice")
              (PStr "english") (PStr "formant") (PStr "oh oo ah")
              [("num_voices", PInt 4)] [("num_voices", PInt 4)] ticking_world
              eq_refl eq_refl) as [[r (E & Hc & Hm & _)] _].
  exists r. split; [exact E |]. split; [exact Hc | exact Hm].
Defined.

(** C2 fails as stated: when the clock moves between the two readings the
    two timestamps of one record differ, in both scripts. *)
Lemma timestamps_differ_on_a_ticking_clock :
  (exists r,
     value_of
       (Gender.create_preset (PStr "Male 1: Bass") (PStr "Deep male bass voice")
          (PStr "english") (PStr "formant") (PStr "oh oo ah") [] ticking_world)
       = Some r /\
     item2 r "metadata" "created_date" = Some (PStr "2026-01-02T03:04:05") /\
     item2 r "metadata" "modified_date" = Some (PStr "2026-01-02T03:04:05.000001") /\
     item2 r "metadata" "created_date" <> item2 r "metadata" "modified_date") /\
  (exists r,
     value_of
       (Additional.create_preset (PStr "Male 1: Bass") (PStr "Deep male bass voice")
          (PStr "english") (PStr "formant") (PStr "oh oo ah") [] ticking_world)
       = Some r /\
     item2 r "metadata" "created_date" <> item2 r "metadata" "modified_date").
Proof.
  split.
  - eexists. split; [reflexivity |].
    split; [reflexivity |]. split; [reflexivity |]. discriminate.
  - eexists. split; [reflexivity |]. discriminate.
Qed.

(** C7: called with the five required arguments only, either builder
    returns a record whose parameters have the declared defaults. *)
Theorem create_preset_defaults
    (name description language synthesis_method lyrics : pyval) (w : world) :
  exists rg ra pg pa,
    Gender.create_preset name description language synthesis_method lyrics [] w
      = Ok rg (after_reads 2 w) /\
    Additional.create_preset name description language synthesis_method lyrics [] w
      = Ok ra (after_reads 2 w) /\
    item rg "parameters" = Some pg /\
    item ra "parameters" = Some pa /\
    Forall (fun kv => item pg (fst kv) = Some (snd kv) /\
                      item pa (fst kv) = Some (snd kv))
      [ ("num_voices", PInt 8); ("master_gain", PFloat (-3.0));
        ("formant_mix", PInt 80); ("subharmonic_mix", PInt 20);
        ("stereo_width", PInt 75); ("vibrato_rate", PFloat 6.0);
        ("vibrato_depth", PFloat 30.0); ("reverb_mix", PInt 25);
        ("reverb_size", PInt 50); ("attack_time", PInt 50);
        ("release_time", PInt 200); ("pitch_variation", PInt 10);
        ("timing_variation", PInt 5); ("formant_variation", PInt 15);
        ("breathiness", PInt 10); ("warmth", PInt 20);
        ("brightness", PInt 50) ].
Proof.
  do 4 eexists.
  split; [apply gender_create_preset_displayed; reflexivity |].
  split; [apply additional_create_preset_displayed; reflexivity |].
  split; [reflexivity |]. split; [reflexivity |].
  repeat (apply List.Forall_cons; [split; reflexivity |]).
  apply List.Forall_nil.
Qed.

(** ** Provenance flags *)

Lemma displayed_flags (category : string)
    (name description language synthesis_method lyrics : pyval)
    (kw : kwargs) (created modified : string) :
  flags_ok (displayed category name description language synthesis_method
              lyrics kw created modified) = true.
Proof. reflexivity. Qed.

Lemma flags_ok_items (r : pyval) :
  flags_ok r = true <->
  item r "is_factory" = Some (PBool true) /\ item r "is_read_only" = Some (PBool true).
Proof.
  unfold flags_ok. split.
  - destruct (item r "is_factory") as [[| [] | | | | | |] |];
      destruct (item r "is_read_only") as [[| [] | | | | | |] |];
      try discriminate; intros _; split; reflexivity.
  - intros [-> ->]. reflexivity.
Qed.

Lemma gender_create_preset_cases
    (name description language synthesis_method lyrics : pyval)
    (kw : kwargs) (w : world) (r : pyval) (w' : world) :
  Gender.create_preset name description language synthesis_method lyrics kw w
    = Ok r w' ->
  accepted Gender.optional_params kw.
Proof.
  unfold accepted, Gender.create_preset, check_kwargs, bind.
  destruct (forallb _ kw); [reflexivity | discriminate].
Qed.

Lemma additional_create_preset_cases
    (name description language synthesis_method lyrics : pyval)
    (kw : kwargs) (w : world) (r : pyval) (w' : world) :
  Additional.create_preset name description language synthesis_method lyrics kw w
    = Ok r w' ->
  accepted Additional.optional_params kw.
Proof.
  unfold accepted, Additional.create_preset, check_kwargs, bind.
  destruct (forallb _ kw); [reflexivity | discriminate].
Qed.

(** ** The catalogs *)

Lemma male_catalog :
  returns Gender.male_presets
    (fun l => length l = 8%nat /\
       Forall (fun r => flags_ok r && voice_types_ok r && gender_balance_ok r
                        && has_parameter "voice_types" r
                        && negb (has_parameter "gender_balance" r) = true) l).
Proof. check_catalog. Qed.

Lemma female_catalog :
  returns Gender.female_presets
    (fun l => length l = 8%nat /\
       Forall (fun r => flags_ok r && voice_types_ok r && gender_balance_ok r
                        && has_parameter "voice_types" r
                        && negb (has_parameter "gender_balance" r) = true) l).
Proof. check_catalog. Qed.

Lemma child_catalog :
  returns Gender.child_presets
    (fun l => length l = 4%nat /\
       Forall (fun r => flags_ok r && voice_types_ok r && gender_balance_ok r
                        && has_parameter "voice_types" r
                        && negb (has_parameter "gender_balance" r) = true) l).
Proof. check_catalog. Qed.

Lemma mixed_catalog :
  returns Gender.mixed_presets
    (fun l => length l = 10%nat /\
       Forall (fun r => flags_ok r && voice_types_ok r && gender_balance_ok r
                        && has_parameter "voice_types" r
                        && has_parameter "gender_balance" r = true) l).
Proof. check_catalog. Qed.

Lemma nonbinary_catalog :
  returns Gender.nonbinary_presets
    (fun l => length l = 4%nat /\
       Forall (fun r => flags_ok r && voice_types_ok r && gender_balance_ok r
                        && has_parameter "voice_types" r
                        && has_parameter "gender_balance" r = true) l).
Proof. check_catalog. Qed.

Lemma additional_catalog :
  returns Additional.additional_presets
    (fun l => length l = 7%nat /\
       Forall (fun r => flags_ok r
                        && negb (has_parameter "voice_types" r)
                        && negb (has_parameter "gender_balance" r) = true) l).
Proof. check_catalog. Qed.

Lemma returns_bind {A B} (m : M A) (k : A -> M B) (P : A -> Prop) (Q : B -> Prop) :
  returns m P -> (forall a, P a -> returns (k a) Q) -> returns (bind m k) Q.
Proof.
  intros Hm Hk w. destruct (Hm w) as (a & w1 & E1 & Pa).
  destruct (Hk a Pa w1) as (b & w2 & E2 & Qb).
  exists b, w2. unfold bind. rewrite E1. split; assumption.
Qed.

Lemma returns_ret {A} (a : A) (P : A -> Prop) : P a -> returns (ret a) P.
Proof. intros Pa w. exists a, w. split; [reflexivity | exact Pa]. Qed.

Lemma filter_all {A} (f : A -> bool) (l : list A) :
  Forall (fun a => f a = true) l -> length (List.filter f l) = length l.
Proof.
  induction 1 as [| a l Ha _ IH]; [reflexivity |].
  cbn. rewrite Ha. cbn. congruence.
Qed.

Lemma filter_none {A} (f : A -> bool) (l : list A) :
  Forall (fun a => f a = false) l -> length (List.filter f l) = 0%nat.
Proof.
  induction 1 as [| a l Ha _ IH]; [reflexivity |].
  cbn. rewrite Ha. exact IH.
Qed.

(** What loading the gender script builds: 34 records in five lists, each
    with true flags and a well-formed voice-type map; the 14 ensemble and
    non-binary records also carry a gender balance, the other 20 do not. *)
Lemma gender_load_catalogs :
  returns Gender.load
    (fun '(males, females, children, mixed, nonbinary) =>
       (length males = 8 /\ length females = 8 /\ length children = 4 /\
        length mixed = 10 /\ length nonbinary = 4)%nat /\
       Forall (fun r => flags_ok r = true /\ voice_types_ok r = true /\
                        gender_balance_ok r = true /\
                        has_parameter "voice_types" r = true /\
                        has_parameter "gender_balance" r = false)
         (males ++ females ++ children)%list /\
       Forall (fun r => flags_ok r = true /\ voice_types_ok r = true /\
                        gender_balance_ok r = true /\
                        has_parameter "voice_types" r = true /\
                        has_parameter "gender_balance" r = true)
         (mixed ++ nonbinary)%list).
Proof.
  assert (Hsolo : forall r,
            flags_ok r && voice_types_ok r && gender_balance_ok r
              && has_parameter "voice_types" r
              && negb (has_parameter "gender_balance" r) = true ->
            flags_ok r = true /\ voice_types_ok r = true /\
            gender_balance_ok r = true /\ has_parameter "voice_types" r = true /\
            has_parameter "gender_balance" r = false).
  { intros r H. repeat (apply andb_prop in H; destruct H as [H ?]).
    repeat split; try assumption. apply negb_true_iff. assumption. }
  assert (Hboth : forall r,
            flags_ok r && voice_types_ok r && gender_balance_ok r
              && has_parameter "voice_types" r
              && has_parameter "gender_balance" r = true ->
            flags_ok r = true /\ voice_types_ok r = true /\
            gender_balance_ok r = true /\ has_parameter "voice_types" r = true /\
            has_parameter "gender_balance" r = true).
  { intros r H. repeat (apply andb_prop in H; destruct H as [H ?]).
    repeat split; assumption. }
  unfold Gender.load.
  eapply returns_bind; [apply male_catalog |]. intros males [Lm Fm].
  eapply returns_bind; [apply female_catalog |]. intros females [Lf Ff].
  eapply returns_bind; [apply child_catalog |]. intros children [Lc Fc].
  eapply returns_bind; [apply mixed_catalog |]. intros mixed [Lx Fx].
  eapply returns_bind; [apply nonbinary_catalog |]. intros nonbinary [Ln Fn].
  apply returns_ret. split; [repeat split; assumption |]. split.
  - repeat (apply Forall_app; split);
      (eapply Forall_impl; [eassumption | exact Hsolo]).
  - repeat (apply Forall_app; split);
      (eapply Forall_impl; [eassumption | exact Hboth]).
Qed.

(** C8: a record returned by either builder, for any arguments, has both
    provenance flags true; so has every entry of the six catalogs the two
    scripts build. *)
Theorem provenance_flags_always_true :
  (forall name description language synthesis_method lyrics kw w r w',
     Gender.create_preset name description language synthesis_method lyrics kw w
       = Ok r w' \/
     Additional.create_preset name description language synthesis_method lyrics kw w
       = Ok r w' ->
     item r "is_factory" = Some (PBool true) /\
     item r "is_read_only" = Some (PBool true)) /\
  returns Gender.load
    (fun '(males, females, children, mixed, nonbinary) =>
       Forall (fun r => item r "is_factory" = Some (PBool true) /\
                        item r "is_read_only" = Some (PBool true))
         (males ++ females ++ children ++ mixed ++ nonbinary)%list) /\
  returns Additional.additional_presets
    (Forall (fun r => item r "is_factory" = Some (PBool true) /\
                      item r "is_read_only" = Some (PBool true))).
Proof.
  split; [| split].
  - intros name description language synthesis_method lyrics kw w r w' [E | E].
    + pose proof (gender_create_preset_cases _ _ _ _ _ _ _ _ _ E) as Hk.
      rewrite (gender_create_preset_displayed _ _ _ _ _ _ _ Hk) in E.
      injection E as <- _. apply flags_ok_items, displayed_flags.
    + pose proof (additional_create_preset_cases _ _ _ _ _ _ _ _ _ E) as Hk.
      rewrite (additional_create_preset_displayed _ _ _ _ _ _ _ Hk) in E.
      injection E as <- _. apply flags_ok_items, displayed_flags.
  - intros w. destruct (gender_load_catalogs w)
      as ([[[[males females] children] mixed] nonbinary] & w' & E & _ & F1 & F2).
    eexists; exists w'. split; [exact E |]. cbn beta iota.
    rewrite !app_assoc, <- (app_assoc _ mixed). apply Forall_app; split.
    + rewrite <- app_assoc. eapply Forall_impl; [exact F1 |].
      intros r (H & _). apply flags_ok_items, H.
    + eapply Forall_impl; [exact F2 |].
      intros r (H & _). apply flags_ok_items, H.
  - intros w. destruct (additional_catalog w) as (l & w' & E & _ & F).
    exists l, w'. split; [exact E |].
    eapply Forall_impl; [exact F |]. intros r H.
    apply flags_ok_items.
    apply andb_prop in H; destruct H as [H _].
    apply andb_prop in H; destruct H as [H _]. exact H.
Qed.

(** C9: in the five catalogs of the gender script, every [voice_types]
    map has integer weights that sum to 100 and every [gender_balance] map
    has ["male"] and ["female"] weights that sum to 100; all 34 records
    carry the first map and 14 of them the second. *)
Theorem catalog_distributions_sum_to_100 :
  returns Gender.load
    (fun '(males, females, children, mixed, nonbinary) =>
       let every := (males ++ females ++ children ++ mixed ++ nonbinary)%list in
       Forall (fun r => voice_types_ok r = true /\ gender_balance_ok r = true)
         every /\
       length every = 34%nat /\
       length (List.filter (has_parameter "voice_types") every) = 34%nat /\
       length (List.filter (has_parameter "gender_balance") every) = 14%nat).
Proof.
  intros w. destruct (gender_load_catalogs w)
    as ([[[[males females] children] mixed] nonbinary] & w' & E & L & F1 & F2).
  eexists; exists w'. split; [exact E |]. cbn beta iota zeta.
  destruct L as (Lm & Lf & Lc & Lx & Ln).
  assert (Eq : (males ++ females ++ children ++ mixed ++ nonbinary
                = (males ++ females ++ children) ++ (mixed ++ nonbinary))%list)
    by (rewrite <- !app_assoc; reflexivity).
  rewrite Eq.
  assert (L1 : length (males ++ females ++ children)%list = 20%nat)
    by (rewrite !length_app, Lm, Lf, Lc; reflexivity).
  assert (L2 : length (mixed ++ nonbinary)%list = 14%nat)
    by (rewrite !length_app, Lx, Ln; reflexivity).
  split; [| split; [| split]].
  - apply Forall_app; split;
      (eapply Forall_impl; [eassumption |]); intros r H; split; apply H.
  - rewrite length_app, L1, L2. reflexivity.
  - rewrite List.filter_app, length_app.
    rewrite (filter_all (has_parameter "voice_types") (males ++ females ++ children)%list),
            (filter_all (has_parameter "voice_types") (mixed ++ nonbinary)%list).
    + rewrite L1, L2. reflexivity.
    + eapply Forall_impl; [exact F2 |]. intros r H; apply H.
    + eapply Forall_impl; [exact F1 |]. intros r H; apply H.
  - rewrite List.filter_app, length_app.
    rewrite (filter_none (has_parameter "gender_balance") (males ++ females ++ children)%list),
            (filter_all (has_parameter "gender_balance") (mixed ++ nonbinary)%list).
    + rewrite L2. reflexivity.
    + eapply Forall_impl; [exact F2 |]. intros r H; apply H.
    + eapply Forall_impl; [exact F1 |]. intros r H; apply H.
Qed.

Lemma provenance_flags_always_true_witness :
  Gender.create_preset (PStr "Male 1: Bass") (PStr "Deep male bass voice")
    (PStr "english") (PStr "formant") (PStr "oh oo ah")
    [("is_factory", PBool false)] ticking_world = Raise TypeError /\
  exists r,
    Gender.create_preset (PStr "Male 1: Bass") (PStr "Deep male bass voice")
      (PStr "english") (PStr "formant") (PStr "oh oo ah")
      [("num_voices", PInt 4)] ticking_world = Ok r (after_reads 2 ticking_world) /\
    item r "is_factory" = Some (PBool true) /\
    item r "is_read_only" = Some (PBool true).
Proof.
  split; [reflexivity |].
  eexists. split; [apply gender_create_preset_displayed; reflexivity |].
  eapply (proj1 provenance_flags_always_true). left.
  apply gender_create_preset_displayed. reflexivity.
Defined.

(** ** The writer's file name *)

Lemma replace_char_length (old new : ascii) (s : string) :
  String.length (replace_char old new s) = String.length s.
Proof. induction s as [| c s IH]; cbn; congruence. Qed.

Lemma replace_char_get (old new : ascii) (s : string) (i : nat) :
  String.get i (replace_char old new s)
  = option_map (fun c => if Ascii.eqb c old then new else c) (String.get i s).
Proof.
  revert i. induction s as [| c s IH]; intros [| i]; cbn; try reflexivity.
  apply IH.
Qed.

Lemma derive_filename_of_name (preset metadata : pyval) (name : string) (w : world) :
  item preset "metadata" = Some metadata ->
  item metadata "name" = Some (PStr name) ->
  Gender.derive_filename preset w
    = Ok (replace_char "/" "_" (replace_char " " "_" name) +:+ ".choirv2") w /\
  Additional.derive_filename preset w
    = Ok (replace_char "/" "_" (replace_char " " "_" name) +:+ ".choirv2") w.
Proof.
  intros Hm Hn.
  unfold Gender.derive_filename, Additional.derive_filename, bind, subscript.
  destruct preset; try discriminate. cbn in Hm. rewrite Hm. cbn.
  destruct metadata; try discriminate. cbn in Hn. rewrite Hn. cbn.
  split; reflexivity.
Qed.

Lemma replace_char_app (old new : ascii) (s t : string) :
  replace_char old new (s +:+ t) = replace_char old new s +:+ replace_char old new t.
Proof.
  induction s as [| c s IH]; [reflexivity |].
  change (String (if Ascii.eqb c old then new else c)
            (replace_char old new (s +:+ t))
          = String (if Ascii.eqb c old then new else c)
              (replace_char old new s +:+ replace_char old new t)).
  rewrite IH. reflexivity.
Qed.

(** The two replacements of the writer, applied to their own result. *)
Lemma sanitize_idempotent (s : string) :
  replace_char "/" "_" (replace_char " " "_"
    (replace_char "/" "_" (replace_char " " "_" s)))
  = replace_char "/" "_" (replace_char " " "_" s).
Proof.
  induction s as [| c s IH]; cbn; [reflexivity |]. rewrite IH. f_equal.
  destruct (Ascii.eqb c " ") eqn:E1; [reflexivity |].
  destruct (Ascii.eqb c "/") eqn:E2; [reflexivity |].
  rewrite E1, E2. reflexivity.
Qed.

(** C3: the file name is a function of the record's name alone: the name
    with every space and every [/] replaced by an underscore and every
    other character kept, followed by [.choirv2]; the replacement step
    leaves a derived name, with or without the extension, unchanged. *)
Theorem filename_derivation (preset metadata : pyval) (name : string) (w : world) :
  item preset "metadata" = Some metadata ->
  item metadata "name" = Some (PStr name) ->
  let stem := replace_char "/" "_" (replace_char " " "_" name) in
  Gender.derive_filename preset w = Ok (stem +:+ ".choirv2") w /\
  Additional.derive_filename preset w = Ok (stem +:+ ".choirv2") w /\
  String.length stem = String.length name /\
  (forall i c, String.get i name = Some c ->
     String.get i stem
     = Some (if Ascii.eqb c " " || Ascii.eqb c "/" then "_"%char else c)) /\
  replace_char "/" "_" (replace_char " " "_" stem) = stem /\
  replace_char "/" "_" (replace_char " " "_" (stem +:+ ".choirv2"))
  = stem +:+ ".choirv2".
Proof.
  intros Hm Hn stem.
  destruct (derive_filename_of_name preset metadata name w Hm Hn) as [Eg Ea].
  split; [exact Eg |]. split; [exact Ea |]. split; [| split; [| split]].
  - subst stem. rewrite !replace_char_length. reflexivity.
  - intros i c Hc. subst stem. rewrite !replace_char_get, Hc. cbn. f_equal.
    destruct (Ascii.eqb c " ") eqn:E1; [reflexivity |].
    destruct (Ascii.eqb c "/") eqn:E2; reflexivity.
  - apply sanitize_idempotent.
  - rewrite !replace_char_app. subst stem. rewrite sanitize_idempotent.
    reflexivity.
Qed.

Lemma filename_derivation_witness :
  Gender.derive_filename
    (PDict [("metadata", PDict [("name", PStr "Male 1: Bass/Low")])]) ticking_world
  = Ok "Male_1:_Bass_Low.choirv2" ticking_world /\
  replace_char "/" "_" (replace_char " " "_" "Male_1:_Bass_Low.choirv2")
  = "Male_1:_Bass_Low.choirv2".
Proof.
  destruct (filename_derivation
              (PDict [("metadata", PDict [("name", PStr "Male 1: Bass/Low")])])
              (PDict [("name", PStr "Male 1: Bass/Low")]) "Male 1: Bass/Low"
              ticking_world eq_refl eq_refl) as (Eg & _ & _ & _ & _ & Ef).
  split; [exact Eg | exact Ef].
Defined.

(** ** The end-to-end example *)

Lemma returns_sequence_head {A} (P : A -> Prop) (m : M A) (ms : list (M A)) :
  returns m P ->
  Forall (fun m' => returns m' (fun _ => True)) ms ->
  returns (sequence (m :: ms)) (fun l => exists a t, l = a :: t /\ P a).
Proof.
  intros Hm Hms w. destruct (Hm w) as (a & w1 & E1 & Pa).
  destruct (returns_sequence _ ms Hms w1) as (l & w2 & E2 & _).
  exists (a :: l), w2. cbn. unfold bind. rewrite E1, E2.
  split; [reflexivity |]. exists a, l. split; [reflexivity | exact Pa].
Qed.

(** C6: a record built with the name ["Male 1: Bass"], four voices,
    warmth 70 and brightness 20 has [num_voices == 4], [warmth == 70.0],
    [brightness == 20.0] and is written as [Male_1:_Bass.choirv2]; the
    first entry of [male_presets] is such a record. *)
Theorem male_bass_end_to_end :
  (forall description language synthesis_method lyrics,
     returns
       (Gender.create_preset (PStr "Male 1: Bass") description language
          synthesis_method lyrics
          [("num_voices", PInt 4); ("warmth", PInt 70); ("brightness", PInt 20)])
       male_bass_example) /\
  returns Gender.male_presets
    (fun l => exists r others, l = r :: others /\ male_bass_example r).
Proof.
  split.
  - intros description language synthesis_method lyrics.
    apply returns_gender_create_preset; [reflexivity |].
    intros created modified. eexists; eexists; eexists.
    repeat (split; [reflexivity |]). intros w. reflexivity.
  - apply returns_sequence_head.
    + apply returns_gender_create_preset; [reflexivity |].
      intros created modified. eexists; eexists; eexists.
      repeat (split; [reflexivity |]). intros w. reflexivity.
    + repeat (apply List.Forall_cons || apply List.Forall_nil);
        (apply returns_gender_create_preset; [reflexivity |]);
        intros created modified; exact I.
Qed.

(** ** Writing a batch *)














(** ** The two scripts side by side *)

Lemma mem_string_In (k : string) (l : list string) :
  mem_string k l = true <-> In k l.
Proof.
  unfold mem_string. rewrite existsb_exists. split.
  - intros (x & Hx & E). apply String.eqb_eq in E. subst. exact Hx.
  - intros H. exists k. split; [exact H | apply String.eqb_refl].
Qed.

Lemma assoc_without (ks : list string) (kw : kwargs) (k : string) :
  mem_string k ks = false -> assoc k (without ks kw) = assoc k kw.
Proof.
  intros Hk. unfold without.
  induction kw as [| [k' v] kw IH]; [reflexivity |].
  cbn. destruct (mem_string k' ks) eqn:Hk'; cbn.
  - destruct (String.eqb_spec k k') as [-> | _]; [congruence | exact IH].
  - rewrite IH. reflexivity.
Qed.

Lemma kwarg_without (ks : list string) (kw : kwargs) (k : string) (default : pyval) :
  mem_string k ks = false -> kwarg (without ks kw) k default = kwarg kw k default.
Proof. intros H. unfold kwarg. rewrite (assoc_without ks kw k H). reflexivity. Qed.

Lemma assoc_absent (kw : kwargs) (k : string) :
  mem_string k (keys kw) = false -> assoc k kw = None.
Proof.
  induction kw as [| [k' v] kw IH]; [reflexivity |].
  cbn. destruct (String.eqb k k'); [discriminate | exact IH].
Qed.

(** What the gender builder accepts beyond the two distribution maps is
    what the other builder accepts. *)
Lemma accepted_without (kw : kwargs) :
  accepted Gender.optional_params kw ->
  accepted Additional.optional_params
    (without ["gender_balance"; "voice_types"] kw).
Proof.
  unfold accepted, without. rewrite !forallb_forall. intros H [k v] Hin.
  apply filter_In in Hin. destruct Hin as [Hin Hk]. specialize (H _ Hin).
  cbn [fst] in H, Hk |- *. apply negb_true_iff in Hk.
  apply mem_string_In in H. apply mem_string_In.
  unfold Gender.optional_params in H. cbn [In] in H.
  repeat (destruct H as [<- | H];
          [first [vm_compute in Hk; discriminate Hk | cbn; tauto] |]).
  contradiction.
Qed.

Lemma accepted_by_both (kw : kwargs) :
  accepted Additional.optional_params kw ->
  accepted Gender.optional_params kw /\
  kwarg kw "gender_balance" PNone = PNone /\
  kwarg kw "voice_types" PNone = PNone.
Proof.
  unfold accepted. rewrite !forallb_forall. intros H. split; [| split].
  - intros [k v] Hin. specialize (H _ Hin). cbn [fst] in H |- *.
    apply mem_string_In in H. apply mem_string_In.
    unfold Additional.optional_params in H. cbn [In] in H. cbn. tauto.
  - unfold kwarg. rewrite assoc_absent; [reflexivity |].
    destruct (mem_string "gender_balance" (keys kw)) eqn:E; [| reflexivity].
    apply mem_string_In, in_map_iff in E. destruct E as ([k v] & Ek & Hin).
    specialize (H _ Hin). cbn [fst] in H, Ek. subst k. discriminate H.
  - unfold kwarg. rewrite assoc_absent; [reflexivity |].
    destruct (mem_string "voice_types" (keys kw)) eqn:E; [| reflexivity].
    apply mem_string_In, in_map_iff in E. destruct E as ([k v] & Ek & Hin).
    specialize (H _ Hin). cbn [fst] in H, Ek. subst k. discriminate H.
Qed.

(** Decides a lookup under a variable key [k] by going through the keys
    of the dictionary one at a time. *)
Ltac by_key k :=
  repeat match goal with
         | |- context [String.eqb k ?s] =>
             let E := fresh "E" in
             destruct (String.eqb k s) eqn:E;
             [ first [ reflexivity
                     | exfalso; apply String.eqb_eq in E; congruence ] | ]
         end;
  try reflexivity.

(** C10: the two [save_preset] functions are the same function; the two
    builders, given the same arguments and the same clock, return records
    that differ in [metadata.category] only; and whatever the gender
    builder is given, its record agrees with the other builder's record,
    built without the two distribution maps, on every field but
    [metadata.category], [parameters.gender_balance] and
    [parameters.voice_types]. *)
Theorem scripts_agree :
  (forall preset directory w,
     Additional.save_preset preset directory w
     = Gender.save_preset preset directory w) /\
  (forall name description language synthesis_method lyrics kw w,
     accepted Additional.optional_params kw ->
     exists ra rg,
       Additional.create_preset name description language synthesis_method
         lyrics kw w = Ok ra (after_reads 2 w) /\
       Gender.create_preset name description language synthesis_method
         lyrics kw w = Ok rg (after_reads 2 w) /\
       item2 ra "metadata" "category" = Some (PStr "Factory") /\
       item2 rg "metadata" "category" = Some (PStr "Gender") /\
       forall w', setitem_nested ra "metadata" "category" (PStr "Gender") w'
                  = Ok rg w') /\
  (forall name description language synthesis_method lyrics kw w,
     accepted Gender.optional_params kw ->
     exists ra rg,
       Additional.create_preset name description language synthesis_method
         lyrics (without ["gender_balance"; "voice_types"] kw) w
         = Ok ra (after_reads 2 w) /\
       Gender.create_preset name description language synthesis_method
         lyrics kw w = Ok rg (after_reads 2 w) /\
       dict_keys rg = dict_keys ra /\
       item rg "is_factory" = item ra "is_factory" /\
       item rg "is_read_only" = item ra "is_read_only" /\
       (forall k, k <> "category" ->
          item2 rg "metadata" k = item2 ra "metadata" k) /\
       (forall k, k <> "gender_balance" -> k <> "voice_types" ->
          item2 rg "parameters" k = item2 ra "parameters" k)).
Proof.
  split; [| split].
  - intros preset directory w. reflexivity.
  - intros name description language synthesis_method lyrics kw w Ha.
    destruct (accepted_by_both kw Ha) as (Hg & Hgb & Hvt).
    eexists; eexists.
    split; [apply additional_create_preset_displayed, Ha |].
    split; [apply gender_create_preset_displayed, Hg |].
    split; [reflexivity |]. split; [reflexivity |].
    intros w'. unfold displayed. rewrite Hgb, Hvt. reflexivity.
  - intros name description language synthesis_method lyrics kw w Hg.
    eexists; eexists.
    split; [apply additional_create_preset_displayed, accepted_without, Hg |].
    split; [apply gender_create_preset_displayed, Hg |].
    unfold displayed.
    rewrite !(kwarg_without ["gender_balance"; "voice_types"] kw)
      by reflexivity.
    split; [reflexivity |]. split; [reflexivity |]. split; [reflexivity |].
    split.
    + intros k Hk. unfold item2. cbn -[kwarg truthy py_or]. by_key k.
    + intros k Hgb Hvt. unfold item2. cbn -[kwarg truthy py_or].
      destruct (truthy (kwarg kw "gender_balance" PNone));
        destruct (truthy (kwarg kw "voice_types" PNone));
        cbn -[kwarg truthy py_or]; by_key k.
Qed.

Lemma scripts_agree_witness :
  exists ra rg,
    Additional.create_preset (PStr "Male 1: Bass") (PStr "Deep male bass voice")
      (PStr "english") (PStr "formant") (PStr "oh oo ah")
      [("num_voices", PInt 4)] ticking_world
      = Ok ra (after_reads 2 ticking_world) /\
    Gender.create_preset (PStr "Male 1: Bass") (PStr "Deep male bass voice")
      (PStr "english") (PStr "formant") (PStr "oh oo ah")
      [("num_voices", PInt 4)] ticking_world
      = Ok rg (after_reads 2 ticking_world) /\
    item2 ra "metadata" "category" = Some (PStr "Factory") /\
    item2 rg "metadata" "category" = Some (PStr "Gender") /\
    forall w', setitem_nested ra "metadata" "category" (PStr "Gender") w'
               = Ok rg w'.
Proof.
  apply (proj1 (proj2 scripts_agree)). reflexivity.
Defined.

(** ** Reading back what the encoder wrote *)

(** *** Integers *)

Lemma uint_of_chars_of_uint (u : Decimal.uint) : uint_of_chars (chars_of_uint u) = u.
Proof.
  induction u; cbn [chars_of_uint uint_of_chars]; rewrite ?IHu; reflexivity.
Qed.

Lemma chars_of_uint_digits (u : Decimal.uint) :
  forallb is_digit (chars_of_uint u) = true.
Proof. induction u; cbn; auto. Qed.

Lemma number_char_false (c : ascii) :
  number_char c = false ->
  is_digit c = false /\ Ascii.eqb c "." = false /\ Ascii.eqb c "e" = false /\
  Ascii.eqb c "E" = false /\ Ascii.eqb c "+" = false /\ Ascii.eqb c "-" = false.
Proof.
  unfold number_char. intros H.
  repeat (apply orb_false_elim in H; destruct H as [H ?]). auto 10.
Qed.

Lemma span_digits_ext (t rest : list ascii) :
  number_stop rest ->
  span_digits (t ++ rest) = (fst (span_digits t), snd (span_digits t) ++ rest)%list.
Proof.
  intros Hr. induction t as [| c t IH]; cbn.
  - destruct rest as [| d rest]; [reflexivity |]. cbn.
    cbn in Hr. apply number_char_false in Hr. destruct Hr as [-> _]. reflexivity.
  - destruct (is_digit c); [| reflexivity].
    rewrite IH. destruct (span_digits t). reflexivity.
Qed.

Lemma span_digits_all (ds : list ascii) :
  forallb is_digit ds = true -> span_digits ds = (ds, []).
Proof.
  induction ds as [| c ds IH]; cbn; [reflexivity |].
  intros H. apply andb_prop in H. destruct H as [-> H].
  rewrite (IH H). reflexivity.
Qed.

Lemma digits_value_digits (z : Z) : 0 <= z -> digits_value (digits z) = z.
Proof.
  intros H. unfold digits_value, digits.
  rewrite uint_of_chars_of_uint, DecimalN.Unsigned.of_to. apply Z2N.id, H.
Qed.

Lemma to_uint_no_leading_zero (p : positive) (u : Decimal.uint) :
  Pos.to_uint p <> Decimal.D0 u.
Proof.
  intros E.
  pose proof (DecimalPos.Unsigned.to_of (Pos.to_uint p)) as H.
  rewrite DecimalPos.Unsigned.of_to in H. cbn in H. rewrite E in H.
  rewrite DecimalFacts.unorm_D0 in H.
  destruct (Decimal.uint_eq_dec u Decimal.Nil) as [-> | Hne].
  - apply (DecimalPos.Unsigned.to_uint_nonzero p). exact E.
  - pose proof (DecimalFacts.nb_digits_unorm u Hne) as L.
    rewrite <- H in L. cbn in L. lia.
Qed.

(** The digits of a non-negative integer start with a digit, and with
    [0] only for zero itself. *)
Lemma digits_head (z : Z) :
  0 <= z ->
  digits z = ["0"%char] \/
  exists c t, digits z = c :: t /\ is_digit c = true /\ Ascii.eqb c "0" = false.
Proof.
  intros H. unfold digits. destruct (Z.to_N z) as [| p]; [left; reflexivity |].
  right. cbn. pose proof (to_uint_no_leading_zero p) as Hz.
  pose proof (DecimalPos.Unsigned.to_uint_nonnil p) as Hn.
  destruct (Pos.to_uint p); cbn;
    first [ contradiction | exfalso; eapply Hz; reflexivity
          | eexists; eexists; repeat split ].
Qed.

Lemma scan_number_digits (z : Z) :
  0 <= z -> scan_number (digits z) = Some (PInt z, []).
Proof.
  intros H. pose proof (digits_value_digits z H) as Hv.
  destruct (digits_head z H) as [E | (c & t & E & Hd & H0)].
  - rewrite E in *. cbn in Hv |- *. unfold scan_number. cbn. congruence.
  - assert (Hall : forallb is_digit (digits z) = true)
      by apply chars_of_uint_digits.
    rewrite E in *. unfold scan_number, scan_sign.
    assert (Hm : Ascii.eqb c "-" = false).
    { destruct (Ascii.eqb_spec c "-"); [subst; discriminate | reflexivity]. }
    rewrite Hm. unfold scan_int. rewrite H0, Hd.
    rewrite (span_digits_all _ Hall). cbn. rewrite Hv. reflexivity.
Qed.

(** *** A number followed by more text *)

Lemma scan_sign_ext (t rest : list ascii) :
  number_stop rest ->
  scan_sign (t ++ rest) = (fst (scan_sign t), snd (scan_sign t) ++ rest)%list.
Proof.
  intros Hr. destruct t as [| c t]; cbn.
  - destruct rest as [| d rest]; [reflexivity |]. cbn in Hr |- *.
    apply number_char_false in Hr. destruct Hr as (_ & _ & _ & _ & _ & ->).
    reflexivity.
  - destruct (Ascii.eqb c "-"); reflexivity.
Qed.

Lemma scan_int_ext (t rest : list ascii) :
  number_stop rest ->
  scan_int (t ++ rest)
  = option_map (fun r => (fst r, snd r ++ rest)%list) (scan_int t).
Proof.
  intros Hr. destruct t as [| c t]; unfold scan_int; cbn [app option_map fst snd].
  - destruct rest as [| d rest]; [reflexivity |]. cbn in Hr.
    apply number_char_false in Hr. destruct Hr as (Hd & _).
    destruct (Ascii.eqb_spec d "0") as [-> | _]; [discriminate Hd |].
    rewrite Hd. reflexivity.
  - destruct (Ascii.eqb c "0"); [reflexivity |].
    destruct (is_digit c); [| reflexivity].
    change (c :: (t ++ rest))%list with ((c :: t) ++ rest)%list.
    rewrite (span_digits_ext (c :: t) rest Hr). reflexivity.
Qed.

Lemma scan_frac_ext (t rest : list ascii) :
  number_stop rest ->
  scan_frac (t ++ rest) = (fst (scan_frac t), snd (scan_frac t) ++ rest)%list.
Proof.
  intros Hr. destruct t as [| c [| d t]]; unfold scan_frac; cbn [app fst snd].
  - destruct rest as [| c [| d rest]]; try reflexivity.
    cbn in Hr. apply number_char_false in Hr.
    destruct Hr as (_ & -> & _). reflexivity.
  - destruct rest as [| d rest]; [reflexivity |]. cbn in Hr.
    apply number_char_false in Hr. destruct Hr as (-> & _).
    rewrite andb_false_r. reflexivity.
  - destruct (Ascii.eqb c "." && is_digit d); [| reflexivity].
    change (d :: (t ++ rest))%list with ((d :: t) ++ rest)%list.
    apply (span_digits_ext (d :: t) rest Hr).
Qed.

Lemma scan_exp_ext (t rest : list ascii) :
  number_stop rest ->
  scan_exp (t ++ rest) = (fst (scan_exp t), snd (scan_exp t) ++ rest)%list.
Proof.
  intros Hr. destruct t as [| c t]; unfold scan_exp; cbn [app fst snd].
  - destruct rest as [| d rest]; [reflexivity |]. cbn in Hr.
    apply number_char_false in Hr. destruct Hr as (_ & _ & -> & -> & _).
    reflexivity.
  - destruct (Ascii.eqb c "e" || Ascii.eqb c "E"); [| reflexivity].
    destruct t as [| g t]; cbn [app].
    + destruct rest as [| d rest]; [reflexivity |]. cbn in Hr.
      apply number_char_false in Hr. destruct Hr as (Hd & _ & _ & _ & Hp & Hm).
      rewrite Hm, Hp. cbn. rewrite Hd. reflexivity.
    + destruct (Ascii.eqb g "-").
      { rewrite (span_digits_ext t rest Hr).
        destruct (span_digits t) as [[| e ds] r]; reflexivity. }
      destruct (Ascii.eqb g "+").
      { rewrite (span_digits_ext t rest Hr).
        destruct (span_digits t) as [[| e ds] r]; reflexivity. }
      change (g :: (t ++ rest))%list with ((g :: t) ++ rest)%list.
      rewrite (span_digits_ext (g :: t) rest Hr).
      destruct (span_digits (g :: t)) as [[| e ds] r]; reflexivity.
Qed.

(** Scanning a number does not look past a character that stops it. *)
Lemma scan_number_ext (t rest : list ascii) :
  number_stop rest ->
  scan_number (t ++ rest)
  = option_map (fun r => (fst r, snd r ++ rest)%list) (scan_number t).
Proof.
  intros Hr. unfold scan_number.
  rewrite (scan_sign_ext t rest Hr). destruct (scan_sign t) as [neg s1]. cbn [fst snd].
  rewrite (scan_int_ext s1 rest Hr).
  destruct (scan_int s1) as [[int_ds s2] |]; [| reflexivity]. cbn [option_map fst snd].
  rewrite (scan_frac_ext s2 rest Hr). destruct (scan_frac s2) as [frac_ds s3].
  cbn [fst snd].
  rewrite (scan_exp_ext s3 rest Hr). destruct (scan_exp s3) as [exp s4].
  cbn [fst snd].
  destruct frac_ds; destruct exp; reflexivity.
Qed.

Lemma strip_prefix_all (p t : list ascii) : strip_prefix p t = Some [] -> t = p.
Proof.
  revert t. induction p as [| c p IH]; intros t; cbn.
  - congruence.
  - destruct t as [| d t]; [discriminate |].
    destruct (Ascii.eqb_spec c d) as [-> | _]; [| discriminate].
    intros H. f_equal. apply IH, H.
Qed.

(** The same for [scan_atom], when the atom is all of [t]. *)
Lemma scan_atom_ext (t rest : list ascii) (v : pyval) :
  number_stop rest ->
  scan_atom t = Some (v, []) -> scan_atom (t ++ rest) = Some (v, rest).
Proof.
  intros Hr. unfold scan_atom. rewrite (scan_number_ext t rest Hr).
  destruct (scan_number t) as [[v' r] |]; cbn [option_map fst snd].
  - intros H. injection H as -> ->. reflexivity.
  - destruct (strip_prefix (list_ascii_of_string "NaN") t) as [r |] eqn:E1.
    { intros H. injection H as <- ->. apply strip_prefix_all in E1. subst t.
      reflexivity. }
    destruct (strip_prefix (list_ascii_of_string "Infinity") t) as [r |] eqn:E2.
    { intros H. injection H as <- ->. apply strip_prefix_all in E2. subst t.
      reflexivity. }
    destruct (strip_prefix (list_ascii_of_string "-Infinity") t) as [r |] eqn:E3.
    { intros H. injection H as <- ->. apply strip_prefix_all in E3. subst t.
      reflexivity. }
    discriminate.
Qed.

Lemma scan_atom_int_repr (z : Z) : scan_atom (int_repr z) = Some (PInt z, []).
Proof.
  unfold scan_atom, int_repr. destruct (Z.ltb_spec z 0) as [Hneg | Hpos].
  - assert (H : 0 <= - z) by lia.
    pose proof (scan_number_digits (- z) H) as E.
    unfold scan_number in E |- *. cbn [scan_sign]. cbn.
    destruct (digits_head (- z) H) as [E0 | (c & t & Ed & Hd & H0)].
    + exfalso. pose proof (digits_value_digits (- z) H) as Hv.
      rewrite E0 in Hv. change (digits_value ["0"%char]) with 0 in Hv. lia.
    + rewrite Ed in E |- *. unfold scan_sign in E.
      assert (Hm : Ascii.eqb c "-" = false).
      { destruct (Ascii.eqb_spec c "-"); [subst; discriminate | reflexivity]. }
      rewrite Hm in E.
      destruct (scan_int (c :: t)) as [[int_ds s2] |]; [| discriminate].
      destruct (scan_frac s2) as [frac_ds s3].
      destruct (scan_exp s3) as [exp s4].
      destruct frac_ds; destruct exp; try discriminate.
      injection E as E1 E2. rewrite E1, E2. rewrite Z.opp_involutive. reflexivity.
  - rewrite (scan_number_digits z Hpos). reflexivity.
Qed.

Lemma scan_atom_start (c : ascii) (t : list ascii) (r : pyval * list ascii) :
  scan_atom (c :: t) = Some r -> atom_start c = true.
Proof.
  intros H.
  destruct c as [[] [] [] [] [] [] [] []];
    first [ reflexivity | cbv in H; discriminate H ].
Qed.

Lemma scan_once_atom (c : ascii) (t : list ascii) (fuel : nat) :
  atom_start c = true -> scan_once (S fuel) (c :: t) = scan_atom (c :: t).
Proof.
  intros H.
  destruct c as [[] [] [] [] [] [] [] []];
    first [ discriminate H | reflexivity ].
Qed.

(** *** Strings *)

Lemma scanstring_escape_char (c : ascii) (tail : list ascii) :
  scanstring (escape_char c ++ tail)
  = match scanstring tail with
    | Some (cs, r) => Some (c :: cs, r)
    | None => None
    end.
Proof. destruct c as [[] [] [] [] [] [] [] []]; reflexivity. Qed.

Lemma scanstring_escaped (cs rest : list ascii) :
  scanstring (flat_map escape_char cs ++ quote_char :: rest) = Some (cs, rest).
Proof.
  induction cs as [| c cs IH]; [reflexivity |].
  cbn [flat_map]. rewrite <- app_assoc, scanstring_escape_char, IH. reflexivity.
Qed.

Lemma scan_once_string (s : string) (rest : list ascii) (fuel : nat) :
  scan_once (S fuel) (encode_basestring_ascii s ++ rest) = Some (PStr s, rest).
Proof.
  unfold encode_basestring_ascii. cbn [app scan_once].
  change (Ascii.eqb quote_char quote_char) with true. cbn iota.
  rewrite <- app_assoc. cbn [app]. rewrite scanstring_escaped.
  rewrite string_of_list_ascii_of_string. reflexivity.
Qed.

(** *** Blanks *)

Lemma skip_ws_spaces (n : nat) (s : list ascii) :
  skip_ws (repeat " "%char n ++ s) = skip_ws s.
Proof. induction n as [| n IH]; [reflexivity | exact IH]. Qed.

Lemma skip_ws_newline_indent (level : nat) (s : list ascii) :
  skip_ws (newline_indent level ++ s) = skip_ws s.
Proof. unfold newline_indent. cbn [app skip_ws]. apply skip_ws_spaces. Qed.

Lemma skip_ws_start (c : ascii) (s : list ascii) :
  is_ws c = false -> skip_ws (c :: s) = c :: s.
Proof. intros H. cbn. rewrite H. reflexivity. Qed.

(** *** Containers *)

Lemma pyval_induction (P : pyval -> Prop) :
  P PNone -> (forall b, P (PBool b)) -> (forall z, P (PInt z)) ->
  (forall f, P (PFloat f)) -> (forall s, P (PStr s)) ->
  (forall l, Forall P l -> P (PList l)) ->
  (forall l, Forall P l -> P (PTuple l)) ->
  (forall d, Forall (fun kv => P (snd kv)) d -> P (PDict d)) ->
  forall v, P v.
Proof.
  intros HN HB HI HF HS HL HT HD.
  fix IH 1. intros [| b | z | f | s | l | l | d].
  - exact HN.
  - apply HB.
  - apply HI.
  - apply HF.
  - apply HS.
  - apply HL. induction l as [| x l IHl]; constructor; [apply IH | exact IHl].
  - apply HT. induction l as [| x l IHl]; constructor; [apply IH | exact IHl].
  - apply HD. induction d as [| [k x] d IHd]; constructor; [apply IH | exact IHd].
Qed.

Lemma items_tail_nil (closing : ascii) (level : nat) (rest : list ascii) :
  items_tail closing level [] rest = (newline_indent level ++ closing :: rest)%list.
Proof. reflexivity. Qed.

Lemma items_tail_cons (closing : ascii) (level : nat) (y : list ascii)
    (ys : list (list ascii)) (rest : list ascii) :
  items_tail closing level (y :: ys) rest
  = (","%char :: newline_indent (S level) ++ y ++ items_tail closing level ys rest)%list.
Proof.
  unfold items_tail. cbn [flat_map]. rewrite <- !app_assoc. cbn [app].
  rewrite <- !app_assoc. reflexivity.
Qed.

Lemma block_cons_app (opening closing : ascii) (level : nat) (x : list ascii)
    (xs : list (list ascii)) (rest : list ascii) :
  (block opening closing level (x :: xs) ++ rest)%list
  = (opening :: newline_indent (S level) ++ x ++ items_tail closing level xs rest)%list.
Proof.
  unfold block, items_tail. cbn [app]. rewrite <- !app_assoc. cbn [app].
  reflexivity.
Qed.

Lemma number_stop_items_tail (closing : ascii) (level : nat)
    (xs : list (list ascii)) (rest : list ascii) :
  number_stop (items_tail closing level xs rest).
Proof. destruct xs; reflexivity. Qed.

Lemma is_ws_cases (c : ascii) :
  is_ws c = true -> c = " "%char \/ c = "009"%char \/ c = "010"%char \/ c = "013"%char.
Proof.
  unfold is_ws. intros H.
  repeat (apply orb_prop in H; destruct H as [H | H]);
    apply Ascii.eqb_eq in H; auto.
Qed.

(** A value does not start with a blank, nor with a closing bracket. *)
Lemma scan_once_start (fuel : nat) (c : ascii) (s : list ascii)
    (r : pyval * list ascii) :
  scan_once fuel (c :: s) = Some r -> is_ws c = false /\ Ascii.eqb c "]" = false.
Proof.
  intros H. destruct fuel as [| fuel]; [discriminate |]. split.
  - destruct (is_ws c) eqn:E; [| reflexivity].
    apply is_ws_cases in E. destruct E as [-> | [-> | [-> | ->]]]; discriminate H.
  - destruct (Ascii.eqb_spec c "]") as [-> | _]; [discriminate H | reflexivity].
Qed.

Lemma skip_ws_scanned (fuel : nat) (s : list ascii) (r : pyval * list ascii) :
  scan_once fuel s = Some r ->
  skip_ws s = s /\ exists c t, s = c :: t /\ Ascii.eqb c "]" = false.
Proof.
  intros H. destruct s as [| c s]; [destruct fuel; discriminate |].
  destruct (scan_once_start fuel c s r H) as [Hw Hb].
  split; [apply skip_ws_start, Hw |]. exists c, s. split; [reflexivity | exact Hb].
Qed.

(** The steps of the three scanners, one lemma for each way through. *)

Lemma scan_items_last (fuel : nat) (s s1 r : list ascii) (v : pyval) :
  scan_once fuel s = Some (v, s1) -> skip_ws s1 = "]"%char :: r ->
  scan_items (S fuel) s = Some ([v], r).
Proof. intros H1 H2. cbn [scan_items]. rewrite H1, H2. reflexivity. Qed.

Lemma scan_items_more (fuel : nat) (s s1 s2 r : list ascii) (v : pyval)
    (vs : list pyval) :
  scan_once fuel s = Some (v, s1) -> skip_ws s1 = ","%char :: s2 ->
  scan_items fuel (skip_ws s2) = Some (vs, r) ->
  scan_items (S fuel) s = Some (v :: vs, r).
Proof. intros H1 H2 H3. cbn [scan_items]. rewrite H1, H2. cbn. rewrite H3. reflexivity. Qed.

Lemma scan_pairs_last (fuel : nat) (s k s1 s2 s3 r : list ascii) (v : pyval) :
  scanstring s = Some (k, s1) -> skip_ws s1 = ":"%char :: s2 ->
  scan_once fuel (skip_ws s2) = Some (v, s3) -> skip_ws s3 = "}"%char :: r ->
  scan_pairs (S fuel) s = Some ([(string_of_list_ascii k, v)], r).
Proof.
  intros H1 H2 H3 H4. cbn [scan_pairs]. rewrite H1, H2. cbn. rewrite H3, H4.
  reflexivity.
Qed.

Lemma scan_pairs_more (fuel : nat) (s k s1 s2 s3 s4 s5 r : list ascii) (v : pyval)
    (pairs : list (string * pyval)) :
  scanstring s = Some (k, s1) -> skip_ws s1 = ":"%char :: s2 ->
  scan_once fuel (skip_ws s2) = Some (v, s3) -> skip_ws s3 = ","%char :: s4 ->
  skip_ws s4 = quote_char :: s5 -> scan_pairs fuel s5 = Some (pairs, r) ->
  scan_pairs (S fuel) s = Some ((string_of_list_ascii k, v) :: pairs, r).
Proof.
  intros H1 H2 H3 H4 H5 H6. cbn [scan_pairs]. rewrite H1, H2. cbn.
  rewrite H3, H4. cbn. rewrite H5. cbn. rewrite H6. reflexivity.
Qed.

Lemma scan_once_list (fuel : nat) (s1 s2 r : list ascii) (q : ascii)
    (items : list pyval) :
  skip_ws s1 = q :: s2 -> Ascii.eqb q "]" = false ->
  scan_items fuel (q :: s2) = Some (items, r) ->
  scan_once (S fuel) ("["%char :: s1) = Some (PList items, r).
Proof.
  intros H1 H2 H3. cbn [scan_once]. cbn. rewrite H1, H2, H3. reflexivity.
Qed.

Lemma scan_once_dict (fuel : nat) (s1 s2 r : list ascii)
    (pairs : list (string * pyval)) :
  skip_ws s1 = quote_char :: s2 -> scan_pairs fuel s2 = Some (pairs, r) ->
  scan_once (S fuel) ("{"%char :: s1) = Some (dict_display pairs, r).
Proof.
  intros H1 H2. cbn [scan_once]. cbn. rewrite H1. cbn. rewrite H2. reflexivity.
Qed.

Lemma scan_items_encoded (xs : list pyval) :
  forall (x : pyval) (level fuel : nat) (rest : list ascii),
    Forall scans_back (x :: xs) ->
    (items_size (x :: xs) <= fuel)%nat ->
    scan_items fuel
      (encode (S level) x
         ++ items_tail "]" level (map (encode (S level)) xs) rest)%list
    = Some (x :: xs, rest).
Proof.
  induction xs as [| y ys IH]; intros x level fuel rest Hall Hfuel;
    inversion Hall as [| ? ? Hx Hxs]; subst;
    unfold items_size in Hfuel; cbn [map list_sum fold_right] in Hfuel;
    (destruct fuel as [| fuel]; [lia |]).
  - eapply scan_items_last.
    + apply Hx; [lia | apply number_stop_items_tail].
    + cbn [map]. rewrite items_tail_nil, skip_ws_newline_indent. reflexivity.
  - assert (E : scan_items fuel
                  (encode (S level) y
                     ++ items_tail "]" level (map (encode (S level)) ys) rest)%list
                = Some (y :: ys, rest)).
    { apply IH; [exact Hxs |]. unfold items_size.
      cbn [map list_sum fold_right]. lia. }
    assert (Hy : scan_once fuel
                  (encode (S level) y
                     ++ items_tail "]" level (map (encode (S level)) ys) rest)%list
                = Some (y, items_tail "]" level (map (encode (S level)) ys) rest)).
    { inversion Hxs as [| ? ? Hy _]; subst.
      apply Hy; [lia | apply number_stop_items_tail]. }
    apply skip_ws_scanned in Hy. destruct Hy as [Hy _].
    eapply scan_items_more.
    + apply Hx; [lia | apply number_stop_items_tail].
    + cbn [map]. rewrite items_tail_cons. apply skip_ws_start. reflexivity.
    + rewrite skip_ws_newline_indent, Hy. exact E.
Qed.

Lemma pair_app (k : string) (x tail : list ascii) :
  ((encode_basestring_ascii k ++ ":"%char :: " "%char :: x) ++ tail)%list
  = (quote_char :: flat_map escape_char (list_ascii_of_string k)
       ++ quote_char :: ":"%char :: " "%char :: x ++ tail)%list.
Proof.
  unfold encode_basestring_ascii. cbn [app]. rewrite <- !app_assoc. reflexivity.
Qed.

Lemma scan_pairs_encoded (d : list (string * pyval)) :
  forall (k : string) (x : pyval) (level fuel : nat) (rest : list ascii),
    Forall (fun kv => scans_back (snd kv)) ((k, x) :: d) ->
    (pairs_size ((k, x) :: d) <= fuel)%nat ->
    scan_pairs fuel
      (flat_map escape_char (list_ascii_of_string k)
         ++ quote_char :: ":"%char :: " "%char :: encode (S level) x
         ++ items_tail "}" level
              (map (fun kv => (encode_basestring_ascii (fst kv)
                                 ++ ":"%char :: " "%char
                                      :: encode (S level) (snd kv))%list) d)
              rest)%list
    = Some ((k, x) :: d, rest).
Proof.
  induction d as [| [k2 y] d IH]; intros k x level fuel rest Hall Hfuel;
    inversion Hall as [| ? ? Hx Hd]; subst; cbn [snd] in Hx;
    unfold pairs_size in Hfuel; cbn [map list_sum fold_right snd] in Hfuel;
    (destruct fuel as [| fuel]; [lia |]).
  - assert (Ex : scan_once fuel
                   (encode (S level) x ++ items_tail "}" level [] rest)%list
                 = Some (x, items_tail "}" level [] rest))
      by (apply Hx; [lia | apply number_stop_items_tail]).
    rewrite <- (string_of_list_ascii_of_string k) at 2.
    eapply scan_pairs_last.
    + apply scanstring_escaped.
    + apply skip_ws_start. reflexivity.
    + cbn [skip_ws]. change (is_ws " ") with true. cbn iota.
      cbn [map]. rewrite (proj1 (skip_ws_scanned _ _ _ Ex)). exact Ex.
    + rewrite items_tail_nil, skip_ws_newline_indent. reflexivity.
  - cbn [map fst snd]. rewrite items_tail_cons, pair_app.
    set (tail := items_tail "}" level _ rest).
    set (more := (flat_map escape_char (list_ascii_of_string k2)
                    ++ quote_char :: ":"%char :: " "%char
                         :: encode (S level) y ++ tail)%list).
    assert (Ex : scan_once fuel
                   (encode (S level) x
                      ++ ","%char :: newline_indent (S level) ++ quote_char :: more)%list
                 = Some (x, (","%char :: newline_indent (S level)
                               ++ quote_char :: more)%list))
      by (apply Hx; [lia | reflexivity]).
    rewrite <- (string_of_list_ascii_of_string k) at 2.
    eapply scan_pairs_more.
    + apply scanstring_escaped.
    + apply skip_ws_start. reflexivity.
    + cbn [skip_ws]. change (is_ws " ") with true. cbn iota.
      rewrite (proj1 (skip_ws_scanned _ _ _ Ex)). exact Ex.
    + apply skip_ws_start. reflexivity.
    + rewrite skip_ws_newline_indent. apply skip_ws_start. reflexivity.
    + subst more tail. apply IH; [exact Hd |].
      unfold pairs_size. cbn [map list_sum fold_right snd]. lia.
Qed.

Lemma scan_once_of_atom (s : list ascii) (r : pyval * list ascii) (fuel : nat) :
  scan_atom s = Some r -> scan_once (S fuel) s = Some r.
Proof.
  intros H. destruct s as [| c t]; [discriminate H |].
  rewrite (scan_once_atom c t fuel (scan_atom_start c t r H)). exact H.
Qed.

(** *** Dictionaries rebuilt from their items *)

Lemma nodup_keys_NoDup (ks : list string) : nodup_keys ks = true <-> NoDup ks.
Proof.
  induction ks as [| k ks IH]; cbn.
  - split; [constructor | reflexivity].
  - rewrite andb_true_iff, negb_true_iff, IH, NoDup_cons.
    assert (E : mem_string k ks = false <-> k ∉ ks).
    { rewrite <- not_true_iff_false, mem_string_In, list_elem_of_In.
      reflexivity. }
    rewrite E. reflexivity.
Qed.

Lemma assoc_set_fresh (k : string) (v : pyval) (d : list (string * pyval)) :
  k ∉ keys d -> assoc_set k v d = (d ++ [(k, v)])%list.
Proof.
  induction d as [| [k' v'] d IH]; intros H; cbn; [reflexivity |].
  cbn in H. apply not_elem_of_cons in H. destruct H as [Hne H].
  destruct (String.eqb_spec k k') as [-> | _]; [contradiction |].
  rewrite (IH H). reflexivity.
Qed.

Lemma dict_display_items (d : list (string * pyval)) :
  nodup_keys (keys d) = true -> dict_display d = PDict d.
Proof.
  intros H. apply nodup_keys_NoDup in H. unfold dict_display. f_equal.
  enough (G : forall acc, NoDup (keys (acc ++ d)) ->
              fold_left (fun a kv => assoc_set (fst kv) (snd kv) a) d acc
              = (acc ++ d)%list) by (apply (G []), H).
  clear H. induction d as [| [k v] d IH]; intros acc H; cbn [fold_left fst snd].
  - rewrite app_nil_r. reflexivity.
  - assert (Hk : k ∉ keys acc).
    { unfold keys in *. rewrite map_app in H. apply NoDup_app in H.
      destruct H as (_ & H & _). intros Hin. apply (H k Hin). cbn. left. }
    rewrite (assoc_set_fresh k v acc Hk), IH.
    + rewrite <- app_assoc. reflexivity.
    + rewrite <- app_assoc. exact H.
Qed.

(** *** The scanner inverts the encoder *)

Lemma json_native_list (l : list pyval) :
  json_native (PList l) <-> Forall json_native l.
Proof.
  cbn [json_native]. induction l as [| x l IH]; cbn [fold_right].
  - split; [constructor | trivial].
  - rewrite IH, Forall_cons. reflexivity.
Qed.

Lemma json_native_dict (d : list (string * pyval)) :
  json_native (PDict d) <->
  nodup_keys (keys d) = true /\ Forall (fun kv => json_native (snd kv)) d.
Proof.
  cbn [json_native].
  enough (E : fold_right (fun kv rest => json_native (snd kv) /\ rest) True d
              <-> Forall (fun kv => json_native (snd kv)) d)
    by (rewrite E; reflexivity).
  induction d as [| kv d IH]; cbn [fold_right].
  - split; [constructor | trivial].
  - rewrite IH, Forall_cons. reflexivity.
Qed.

Lemma Forall_modus_ponens {A} (P Q : A -> Prop) (l : list A) :
  Forall (fun a => P a -> Q a) l -> Forall P l -> Forall Q l.
Proof.
  induction 1 as [| a l Ha _ IH]; intros H; [constructor |].
  apply Forall_cons in H. destruct H as [Pa Pl].
  constructor; [exact (Ha Pa) | exact (IH Pl)].
Qed.

Theorem scan_once_encoded (v : pyval) : json_native v -> scans_back v.
Proof.
  induction v as [| b | z | f | s | l IH | l IH | d IH] using pyval_induction;
    intros Hv level fuel rest Hfuel Hrest.
  - destruct fuel as [| fuel]; [cbn in Hfuel; lia | reflexivity].
  - destruct fuel as [| fuel]; [cbn in Hfuel; lia |]. destruct b; reflexivity.
  - destruct fuel as [| fuel]; [cbn in Hfuel; lia |].
    apply scan_once_of_atom. cbn [encode].
    apply scan_atom_ext; [exact Hrest | apply scan_atom_int_repr].
  - destruct fuel as [| fuel]; [cbn in Hfuel; lia |].
    apply scan_once_of_atom. cbn [encode].
    apply scan_atom_ext; [exact Hrest | apply Hv].
  - destruct fuel as [| fuel]; [cbn in Hfuel; lia |].
    cbn [encode]. apply scan_once_string.
  - apply json_native_list in Hv.
    pose proof (Forall_modus_ponens _ _ _ IH Hv) as Hl. clear IH Hv.
    destruct fuel as [| fuel]; [cbn in Hfuel; lia |].
    cbn [size] in Hfuel. apply le_S_n in Hfuel. fold (items_size l) in Hfuel.
    cbn [encode]. destruct l as [| x xs]; [reflexivity |].
    cbn [map]. rewrite block_cons_app.
    pose proof (scan_items_encoded xs x level fuel rest Hl Hfuel) as E.
    assert (Ex : exists r,
                   scan_once fuel
                     (encode (S level) x
                        ++ items_tail "]" level (map (encode (S level)) xs) rest)%list
                   = Some r).
    { inversion Hl as [| ? ? Hx _]; subst. eexists.
      apply Hx; [| apply number_stop_items_tail].
      unfold items_size in Hfuel. cbn [map list_sum fold_right] in Hfuel. lia. }
    destruct Ex as [r Ex]. apply skip_ws_scanned in Ex.
    destruct Ex as (Hskip & c & t & Ec & Hc).
    eapply scan_once_list.
    + rewrite skip_ws_newline_indent, Hskip. exact Ec.
    + exact Hc.
    + rewrite <- Ec. exact E.
  - contradiction.
  - apply json_native_dict in Hv. destruct Hv as [Hkeys Hv].
    pose proof (Forall_modus_ponens _ _ _ IH Hv) as Hd. clear IH Hv.
    destruct fuel as [| fuel]; [cbn in Hfuel; lia |].
    cbn [size] in Hfuel. apply le_S_n in Hfuel. fold (pairs_size d) in Hfuel.
    rewrite <- (dict_display_items d Hkeys) at 2.
    cbn [encode]. destruct d as [| [k x] d]; [reflexivity |].
    cbn [map fst snd]. rewrite block_cons_app, pair_app.
    eapply scan_once_dict.
    + rewrite skip_ws_newline_indent. apply skip_ws_start. reflexivity.
    + apply scan_pairs_encoded; assumption.
Qed.

(** *** Fuel: the text is at least as long as the value is large *)

Lemma length_newline_indent (level : nat) :
  (1 <= length (newline_indent level))%nat.
Proof. unfold newline_indent. cbn [length]. lia. Qed.

Lemma length_items (level : nat) (ys : list (list ascii)) :
  (list_sum (map (fun y => S (length y)) ys)
   <= length (flat_map (fun y => ","%char :: newline_indent (S level) ++ y) ys))%nat.
Proof.
  induction ys as [| y ys IH]; cbn [map list_sum fold_right flat_map]; [cbn; lia |].
  rewrite length_app. cbn [length]. rewrite length_app.
  change (fold_right Nat.add 0%nat (map (fun y => S (length y)) ys))
    with (list_sum (map (fun y => S (length y)) ys)).
  lia.
Qed.

Lemma length_block (opening closing : ascii) (level : nat) (items : list (list ascii)) :
  (S (list_sum (map (fun y => S (length y)) items))
   <= length (block opening closing level items))%nat.
Proof.
  destruct items as [| x xs]; [cbn; lia |].
  unfold block. cbn [length map list_sum fold_right].
  rewrite !length_app. cbn [length].
  pose proof (length_items level xs). pose proof (length_newline_indent (S level)).
  change (fold_right Nat.add 0%nat (map (fun y => S (length y)) xs))
    with (list_sum (map (fun y => S (length y)) xs)).
  lia.
Qed.

Lemma list_sum_le {A} (f g : A -> nat) (l : list A) :
  Forall (fun a => (f a <= g a)%nat) l ->
  (list_sum (map f l) <= list_sum (map g l))%nat.
Proof.
  induction 1 as [| a l Ha _ IH]; cbn [map list_sum fold_right]; [lia |].
  change (fold_right Nat.add 0%nat (map f l)) with (list_sum (map f l)).
  change (fold_right Nat.add 0%nat (map g l)) with (list_sum (map g l)).
  lia.
Qed.

Lemma scan_atom_length (t : list ascii) (r : pyval * list ascii) :
  scan_atom t = Some r -> (1 <= length t)%nat.
Proof. destruct t; [discriminate | cbn; lia]. Qed.

Lemma size_le_length (v : pyval) :
  json_native v -> forall level, (size v <= length (encode level v))%nat.
Proof.
  induction v as [| b | z | f | s | l IH | l IH | d IH] using pyval_induction;
    intros Hv level.
  - cbn. lia.
  - destruct b; cbn; lia.
  - cbn [size encode]. exact (scan_atom_length _ _ (scan_atom_int_repr z)).
  - cbn [size encode]. exact (scan_atom_length _ _ (proj2 Hv)).
  - cbn [size encode length encode_basestring_ascii]. lia.
  - apply json_native_list in Hv.
    pose proof (Forall_modus_ponens _ _ _ IH Hv) as Hl.
    cbn [size encode].
    etransitivity; [| apply length_block]. apply le_n_S.
    rewrite map_map. apply list_sum_le.
    eapply Forall_impl; [exact Hl |]. intros x Hx. cbn beta.
    apply le_n_S, Hx.
  - contradiction.
  - apply json_native_dict in Hv. destruct Hv as [_ Hv].
    pose proof (Forall_modus_ponens _ _ _ IH Hv) as Hd.
    cbn [size encode].
    etransitivity; [| apply length_block]. apply le_n_S.
    rewrite map_map. apply list_sum_le.
    eapply Forall_impl; [exact Hd |]. intros [k x] Hx. cbn beta. cbn [fst snd].
    apply le_n_S. rewrite length_app. cbn [length].
    specialize (Hx (S level)). cbn [snd] in Hx. lia.
Qed.

(** *** [json.loads(json.dumps(v, indent=2))] *)

Theorem json_loads_dumps (v : pyval) :
  json_native v -> json_loads (json_dumps v) = Some v.
Proof.
  intros Hv. unfold json_loads, json_dumps.
  rewrite list_ascii_of_string_of_list_ascii.
  assert (E : forall fuel, (size v <= fuel)%nat ->
                scan_once fuel (encode 0 v) = Some (v, [])).
  { intros fuel Hfuel. rewrite <- (app_nil_r (encode 0 v)).
    apply (scan_once_encoded v Hv); [exact Hfuel | exact I]. }
  rewrite (proj1 (skip_ws_scanned _ _ _ (E (size v) (le_n _)))).
  rewrite E; [reflexivity |].
  pose proof (size_le_length v Hv 0%nat). lia.
Qed.

(** *** A native value equals itself *)




(** *** The records the builders return *)

Lemma kwarg_native (kw : kwargs) (k : string) (default : pyval) :
  Forall (fun kv => json_native (snd kv)) kw -> json_native default ->
  json_native (kwarg kw k default).
Proof.
  intros Hkw Hd. unfold kwarg.
  destruct (assoc k kw) as [v |] eqn:E; [| exact Hd].
  induction Hkw as [| [k' v'] kw Hv _ IH]; [discriminate |].
  cbn in E. destruct (String.eqb k k'); [| exact (IH E)].
  injection E as <-. exact Hv.
Qed.

Lemma py_or_native (a b : pyval) :
  json_native a -> json_native b -> json_native (py_or a b).
Proof. intros Ha Hb. unfold py_or. destruct (truthy a); assumption. Qed.

Lemma float_native_literals :
  float_native (-3.0) /\ float_native 1.0 /\ float_native 6.0 /\ float_native 30.0.
Proof. repeat split; vm_compute; reflexivity. Qed.

(** A record built from native arguments is native. *)
Lemma displayed_native (category : string)
    (name description language synthesis_method lyrics : pyval)
    (kw : kwargs) (created modified : string) :
  Forall json_native [name; description; language; synthesis_method; lyrics] ->
  Forall (fun kv => json_native (snd kv)) kw ->
  json_native (displayed category name description language synthesis_method
                 lyrics kw created modified).
Proof.
  intros Hargs Hkw.
  destruct float_native_literals as (F3 & F1 & F6 & F30).
  repeat (apply Forall_cons in Hargs; destruct Hargs as [? Hargs]).
  assert (K : forall k default, json_native default ->
                json_native (kwarg kw k default))
    by (intros; apply kwarg_native; assumption).
  unfold displayed.
  destruct (String.eqb category "Gender");
    [destruct (truthy (kwarg kw "gender_balance" PNone));
     destruct (truthy (kwarg kw "voice_types" PNone)) |];
    cbn [json_native fold_right keys map fst snd app];
    repeat match goal with
           | |- _ /\ _ => split
           | |- True => exact I
           | |- nodup_keys _ = true => reflexivity
           | |- json_native (kwarg _ _ _) => apply K
           | |- json_native (py_or _ _) => apply py_or_native
           | |- json_native (PInt _) => exact I
           | |- json_native PNone => exact I
           | |- json_native (PList []) => exact I
           | |- json_native (PFloat _) => assumption
           | |- float_native _ => assumption
           | |- json_native _ => assumption
           end.
Qed.


(** Proves that a closed value is native, by evaluation. *)
Ltac native_by_evaluation := vm_compute; repeat split.



(** A NaN is written as [NaN] and read back as a NaN, which [==] does not
    take for equal to the original; an infinity comes back equal. *)
Lemma nan_comes_back_unequal :
  json_loads (json_dumps (PDict [("vibrato_rate", PFloat nan)]))
  = Some (PDict [("vibrato_rate", PFloat nan)]) /\
  py_eq (PDict [("vibrato_rate", PFloat nan)])
        (PDict [("vibrato_rate", PFloat nan)]) = false /\
  json_loads (json_dumps (PDict [("vibrato_rate", PFloat infinity)]))
  = Some (PDict [("vibrato_rate", PFloat infinity)]) /\
  py_eq (PDict [("vibrato_rate", PFloat infinity)])
        (PDict [("vibrato_rate", PFloat infinity)]) = true.
Proof. repeat split; vm_compute; reflexivity. Qed.

(** Every record of the six catalogs is read back from its JSON text. *)
Ltac check_catalog_round_trip :=
  apply returns_sequence;
  repeat (apply List.Forall_cons || apply List.Forall_nil);
  ((apply returns_gender_create_preset || apply returns_additional_create_preset);
   [ reflexivity
   | intros created modified; apply json_loads_dumps, displayed_native;
     repeat (apply List.Forall_cons || apply List.Forall_nil);
     native_by_evaluation ]).

Lemma catalogs_round_trip :
  returns Gender.load
    (fun '(males, females, children, mixed, nonbinary) =>
       Forall (fun r => json_loads (json_dumps r) = Some r)
         (males ++ females ++ children ++ mixed ++ nonbinary)%list) /\
  returns Additional.additional_presets
    (Forall (fun r => json_loads (json_dumps r) = Some r)).
Proof.
  pose (read_back := fun r => json_loads (json_dumps r) = Some r).
  assert (Hm : returns Gender.male_presets
                 (fun l => length l = 8%nat /\ Forall read_back l))
    by check_catalog_round_trip.
  assert (Hf : returns Gender.female_presets
                 (fun l => length l = 8%nat /\ Forall read_back l))
    by check_catalog_round_trip.
  assert (Hc : returns Gender.child_presets
                 (fun l => length l = 4%nat /\ Forall read_back l))
    by check_catalog_round_trip.
  assert (Hx : returns Gender.mixed_presets
                 (fun l => length l = 10%nat /\ Forall read_back l))
    by check_catalog_round_trip.
  assert (Hn : returns Gender.nonbinary_presets
                 (fun l => length l = 4%nat /\ Forall read_back l))
    by check_catalog_round_trip.
  assert (Ha : returns Additional.additional_presets
                 (fun l => length l = 7%nat /\ Forall read_back l))
    by check_catalog_round_trip.
  split.
  - unfold Gender.load.
    eapply returns_bind; [exact Hm |]. intros males [_ Fm].
    eapply returns_bind; [exact Hf |]. intros females [_ Ff].
    eapply returns_bind; [exact Hc |]. intros children [_ Fc].
    eapply returns_bind; [exact Hx |]. intros mixed [_ Fx].
    eapply returns_bind; [exact Hn |]. intros nonbinary [_ Fn].
    apply returns_ret. repeat (apply Forall_app; split); assumption.
  - intros w. destruct (Ha w) as (l & w' & E & _ & F).
    exists l, w'. split; assumption.
Qed.
